(** * featureservice-to-featureclass: the REST client and the exporter

    A shallow embedding of [rest_utilities.py] (class [FeatureService]).

    - Values decoded from JSON are the Python values the code handles:
      [None], booleans, integers, strings, lists and dictionaries.  Numbers
      are integers here (object identifiers, record counts, well-known
      ids); the code never computes with coordinates, it only passes them on.
    - A Python exception is a [Raise] result; the exception classes are the
      ones the interpreter raises ([KeyError], [TypeError], [ValueError]).
      Where Python 2 and Python 3 differ (ordering of unlike types, order of
      the items of a dictionary literal) the embedding follows Python 3.
    - The two collaborators of the class are modelled by their interface:
      the HTTP endpoint is a function from the requested URL to the decoded
      response ([requests.get(url).json()]), and every call to the dataset
      writer ([arcpy]) is recorded, in order, in a trace of events.  The
      writer accepts every call. *)

From Stdlib Require Import ZArith List String Ascii Bool Lia.
From Stdlib Require Import DecimalString.
Import ListNotations.

Local Open Scope string_scope.
Local Open Scope Z_scope.

Set Warnings "-register-all".

(** ** Python values and exceptions *)

Inductive json : Type :=
| JNull
| JBool (b : bool)
| JNum (n : Z)
| JStr (s : string)
| JArr (items : list json)
| JObj (members : list (string * json)).

Inductive exn : Type :=
| KeyError (key : json)
| TypeError
| ValueError
| RequestException.

Inductive result (A : Type) : Type :=
| Ok (a : A)
| Raise (e : exn).

Arguments Ok {A} a.
Arguments Raise {A} e.

Definition rbind {A B} (r : result A) (f : A -> result B) : result B :=
  match r with
  | Ok a => f a
  | Raise e => Raise e
  end.

Declare Scope result_scope.
Delimit Scope result_scope with result.
Notation "x <- r ;; k" := (rbind r (fun x => k))
  (at level 61, r at next level, right associativity) : result_scope.

Fixpoint rmap {A B} (f : A -> result B) (l : list A) : result (list B) :=
  match l with
  | [] => Ok []
  | a :: l' =>
      match f a with
      | Raise e => Raise e
      | Ok b =>
          match rmap f l' with
          | Raise e => Raise e
          | Ok bs => Ok (b :: bs)
          end
      end
  end.

(** ** The operations of the interpreter the code relies on *)

Module Py.

(** [d.get]-like search of a dictionary: the binding of the key. *)
Fixpoint lookup {V} (k : string) (d : list (string * V)) : option V :=
  match d with
  | [] => None
  | (k', v) :: d' => if String.eqb k' k then Some v else lookup k d'
  end.

Definition has_key {V} (k : string) (d : list (string * V)) : bool :=
  match lookup k d with
  | Some _ => true
  | None => false
  end.

(** [v[k]] for a string key [k]. *)
Definition getitem (v : json) (k : string) : result json :=
  match v with
  | JObj d =>
      match lookup k d with
      | Some x => Ok x
      | None => Raise (KeyError (JStr k))
      end
  | _ => Raise TypeError
  end.

(** [v == s] for a string literal [s]. *)
Definition eq_str (v : json) (s : string) : bool :=
  match v with
  | JStr s' => String.eqb s' s
  | _ => false
  end.

Fixpoint substring_of (k s : string) : bool :=
  String.prefix k s
  || match s with
     | EmptyString => false
     | String _ s' => substring_of k s'
     end.

(** [k in v] for a string literal [k]: key of a dictionary, element of a
    list, substring of a string. *)
Definition contains (k : string) (v : json) : result bool :=
  match v with
  | JObj d => Ok (has_key k d)
  | JArr l => Ok (existsb (fun x => eq_str x k) l)
  | JStr s => Ok (substring_of k s)
  | _ => Raise TypeError
  end.

Fixpoint chars (s : string) : list json :=
  match s with
  | EmptyString => []
  | String c s' => JStr (String c EmptyString) :: chars s'
  end.

(** The items [for x in v] runs through. *)
Definition iter (v : json) : result (list json) :=
  match v with
  | JArr l => Ok l
  | JObj d => Ok (map (fun kv => JStr (fst kv)) d)
  | JStr s => Ok (chars s)
  | _ => Raise TypeError
  end.

(** [len(v)]. *)
Definition len (v : json) : result Z :=
  match v with
  | JArr l => Ok (Z.of_nat (List.length l))
  | JObj d => Ok (Z.of_nat (List.length d))
  | JStr s => Ok (Z.of_nat (String.length s))
  | _ => Raise TypeError
  end.

(** [sep.join(l)]. *)
Fixpoint join (sep : string) (l : list string) : string :=
  match l with
  | [] => ""
  | [s] => s
  | s :: l' => s ++ sep ++ join sep l'
  end.

Definition str_of_Z (n : Z) : string :=
  NilZero.string_of_int (Z.to_int n).

(** [repr(v)]; exact for strings free of quotes, backslashes and control
    characters. *)
Fixpoint repr (v : json) : string :=
  match v with
  | JNull => "None"
  | JBool true => "True"
  | JBool false => "False"
  | JNum n => str_of_Z n
  | JStr s => "'" ++ s ++ "'"
  | JArr l => "[" ++ join ", " (map repr l) ++ "]"
  | JObj d =>
      "{" ++ join ", " (map (fun kv => "'" ++ fst kv ++ "': " ++ repr (snd kv)) d)
          ++ "}"
  end.

(** [str(v)]. *)
Definition str (v : json) : string :=
  match v with
  | JStr s => s
  | _ => repr v
  end.

(** The number a value stands for in a comparison with an integer:
    booleans are the integers 0 and 1, other kinds do not compare. *)
Definition as_int (v : json) : result Z :=
  match v with
  | JNum n => Ok n
  | JBool true => Ok 1
  | JBool false => Ok 0
  | _ => Raise TypeError
  end.

(** [range(0, stop, step)]. *)
Definition range0 (stop step : Z) : result (list Z) :=
  if step =? 0 then Raise ValueError
  else if 0 <? step then
    Ok (map (fun k => Z.of_nat k * step)
            (seq 0 (Z.to_nat ((stop + step - 1) / step))))
  else
    Ok (map (fun k => Z.of_nat k * step)
            (seq 0 (Z.to_nat ((- stop - step - 1) / (- step))))).

(** The bound of a slice brought into [0 .. n]. *)
Definition clamp (n x : Z) : Z :=
  if x <? 0 then Z.max 0 (x + n) else Z.min x n.

(** [l[i:j]] on a list. *)
Definition slice {A} (l : list A) (i j : Z) : list A :=
  let n := Z.of_nat (List.length l) in
  let lo := clamp n i in
  let hi := clamp n j in
  firstn (Z.to_nat (hi - lo)) (skipn (Z.to_nat lo) l).

(** A lookup table written as a dictionary literal with string values,
    indexed by a decoded value: lists and dictionaries are unhashable. *)
Definition table (tbl : list (string * string)) (k : json) : result string :=
  match k with
  | JStr s =>
      match lookup s tbl with
      | Some x => Ok x
      | None => Raise (KeyError k)
      end
  | JArr _ | JObj _ => Raise TypeError
  | _ => Raise (KeyError k)
  end.

End Py.

(** ** The fragment of [re] the field filter uses *)

Module Re.

Inductive atom : Type :=
| Chr (c : ascii)
| Dot.

(** An atom, starred or not. *)
Definition item : Type := (atom * bool)%type.

Inductive token : Type :=
| TAtom (a : atom)
| TStar
| TCaret.

Fixpoint lex (p : string) : list token :=
  match p with
  | EmptyString => []
  | String "\" (String c p') => TAtom (Chr c) :: lex p'
  | String "." p' => TAtom Dot :: lex p'
  | String "*" p' => TStar :: lex p'
  | String "^" p' => TCaret :: lex p'
  | String c p' => TAtom (Chr c) :: lex p'
  end.

Fixpoint items (ts : list token) : list item :=
  match ts with
  | [] => []
  | TAtom a :: TStar :: ts' => (a, true) :: items ts'
  | TAtom a :: ts' => (a, false) :: items ts'
  | _ :: ts' => items ts'
  end.

(** [re.match] anchors at the start of the string, so a leading [^] adds
    nothing. *)
Definition compile (p : string) : list item := items (lex p).

Definition newline : ascii := "010"%char.

Definition accepts (a : atom) (c : ascii) : bool :=
  match a with
  | Chr c' => Ascii.eqb c c'
  | Dot => negb (Ascii.eqb c newline)
  end.

(** Does the pattern match a prefix of the string. *)
Fixpoint run (p : list item) (s : string) : bool :=
  match p with
  | [] => true
  | (a, false) :: p' =>
      match s with
      | String c s' => accepts a c && run p' s'
      | EmptyString => false
      end
  | (a, true) :: p' =>
      (fix star (s : string) : bool :=
         run p' s
         || match s with
            | String c s' => accepts a c && star s'
            | EmptyString => false
            end) s
  end.

(** [re.match(pattern, v)] as a truth value. *)
Definition match_ (pattern : string) (v : json) : result bool :=
  match v with
  | JStr s => Ok (run (compile pattern) s)
  | _ => Raise TypeError
  end.

End Re.

(** ** Percent-encoding of a query string *)

Module Url.

Local Open Scope N_scope.



End Url.

(** ** The trace of calls to the collaborators *)

(** [arcpy.AsShape] applied to the dictionary
    [{'type': ..., 'coordinates': ...}]: the geometry object it builds is
    opaque to the code. *)
Inductive shape : Type :=
| AsShape (type : string) (coordinates : json).

(** The dictionary [{'attributes': ..., 'geometry': ...}] of one feature. *)
Record feature_dict : Type := {
  attributes : json;
  geometry : shape
}.

(** An element of the list given to [insertRow]. *)
Inductive value : Type :=
| Attribute (v : json)
| Geometry (g : shape).

(** The calls the class makes, with the arguments it computes for them.
    [CreateFeatureclass] carries the path of the feature class, which the
    code hands over as directory and base name, and the well-known id given
    to [arcpy.SpatialReference]; [InsertCursor] and [CursorExit] are the
    entry to and the exit from the [with] statement. *)
Inductive event : Type :=
| HttpGet (url : string)
| CreateFeatureclass (output_feature_class geometry_type : string) (wkid : json)
| AddField (in_table field_name field_type : string) (field_alias field_length : json)
| InsertCursor (in_table : string) (field_names : list string)
| InsertRow (row : list value)
| CursorExit.

(** A computation: the events it performed, then its value or the exception
    that ended it. *)
Definition M (A : Type) : Type := (list event * result A)%type.

Definition ret {A} (a : A) : M A := ([], Ok a).

Definition bind {A B} (m : M A) (f : A -> M B) : M B :=
  match m with
  | (t, Raise e) => (t, Raise e)
  | (t, Ok a) => let (t', r) := f a in ((t ++ t')%list, r)
  end.

Definition emit (e : event) : M unit := ([e], Ok tt).

Definition lift {A} (r : result A) : M A := ([], r).

(** The body of a [with] statement: the context manager is left on every
    exit, also the exceptional one. *)
Definition with_exit {A} (body : M A) : M A :=
  let (t, r) := body in ((t ++ [CursorExit])%list, r).

Declare Scope io_scope.
Delimit Scope io_scope with io.
Notation "x <- m ;; k" := (bind m (fun x => k))
  (at level 61, m at next level, right associativity) : io_scope.
Notation "m ;; k" := (bind m (fun _ => k))
  (at level 61, right associativity) : io_scope.

Fixpoint for_each {A} (l : list A) (body : A -> M unit) : M unit :=
  match l with
  | [] => ret tt
  | a :: l' => bind (body a) (fun _ => for_each l' body)
  end.

Definition trace {A} (m : M A) : list event := fst m.
Definition outcome {A} (m : M A) : result A := snd m.

(** ** class FeatureService: the parts that do not touch the endpoint *)

Record FeatureService : Type := {
  url : string;
  properties : json
}.

(** Truth value of a string in a condition. *)
Definition truthy_str (s : string) : bool :=
  negb (String.eqb s "").

(** The helper nested in [_get_feature_list].  Its last test is written
    ['x' and 'y' in d]: [and] yields its left operand when that is false and
    its right operand otherwise.  A dictionary that passes no test falls off
    the end of the function, which returns [None]. *)
Definition get_geometry_json (feature_geometry_dictionary : json) : result json :=
  let d := feature_geometry_dictionary in
  (has_paths <- Py.contains "paths" d ;;
   if has_paths then Py.getitem d "paths"
   else
     has_rings <- Py.contains "rings" d ;;
     if has_rings then Py.getitem d "rings"
     else
       has_xy <- (if truthy_str "x" then Py.contains "y" d else Ok false) ;;
       if has_xy then
         x <- Py.getitem d "x" ;;
         y <- Py.getitem d "y" ;;
         Ok (JArr [x; y])
       else Ok JNull)%result.

(** The lookup table of [_get_feature_list]. *)
Definition geometry_type_label : list (string * string) :=
  [("esriGeometryPoint", "Point");
   ("esriGeometryMultipoint", "MultiPoint");
   ("esriGeometryPolyline", "MultiLineString");
   ("esriGeometryPolygon", "Polygon")].

(** One turn of the loop over [rest_dict['features']]: the items of the
    dictionary literals are evaluated in the order they are written. *)
Definition feature_of (rest_dict feature : json) : result feature_dict :=
  (gt <- Py.getitem rest_dict "geometryType" ;;
   type <- Py.table geometry_type_label gt ;;
   g <- Py.getitem feature "geometry" ;;
   coordinates <- get_geometry_json g ;;
   attributes <- Py.getitem feature "attributes" ;;
   Ok {| attributes := attributes; geometry := AsShape type coordinates |})%result.

(** The loop of [_get_feature_list] over the decoded response. *)
Definition feature_list_of (rest_dict : json) : result (list feature_dict) :=
  (features <- Py.getitem rest_dict "features" ;;
   items <- Py.iter features ;;
   rmap (feature_of rest_dict) items)%result.

Definition _validate_field (field_instance : json) : result bool :=
  (t <- Py.getitem field_instance "type" ;;
   if Py.eq_str t "esriFieldTypeOID" then Ok false
   else if Py.eq_str t "esriFieldTypeGeometry" then Ok false
   else
     name <- Py.getitem field_instance "name" ;;
     m <- Re.match_ "^OBJECTID.*" name ;;
     if m then Ok false
     else
       m <- Re.match_ "^Shape\..*" name ;;
       if m then Ok false
       else if Py.eq_str t "esriFieldTypeDate" then Ok false
       else if Py.eq_str t "esriFieldTypeGlobalID" then Ok false
       else Ok true)%result.

(** The lookup tables of [save_to_feature_class]. *)
Definition geometry_type_fc : list (string * string) :=
  [("esriGeometryPoint", "POINT");
   ("esriGeometryMultipoint", "MULTIPOINT");
   ("esriGeometryPolyline", "POLYLINE");
   ("esriGeometryPolygon", "POLYGON")].

Definition field_type : list (string * string) :=
  [("esriFieldTypeString", "TEXT");
   ("esriFieldTypeFloat", "FLOAT");
   ("esriFieldTypeDouble", "DOUBLE");
   ("esriFieldTypeSmallInteger", "SHORT");
   ("esriFieldTypeInteger", "LONG");
   ("esriFieldTypeDate", "DATE");
   ("esriFieldTypeGlobalID", "GUID")].

(** The name of a field that passed [_validate_field]: [re.match] accepted
    it, so it is a string. *)
Definition field_name_of (field : json) : result string :=
  (name <- Py.getitem field "name" ;;
   match name with
   | JStr s => Ok s
   | _ => Raise TypeError
   end)%result.

(** The batch size chosen from [maxRecordCount]. *)
Definition batch_size_of (maxRecordCount : Z) : Z :=
  if 100 <? maxRecordCount then 100 else maxRecordCount.

(** [[l[i: i + batch_size] for i in range(0, len(l) - 1, batch_size)]] on a
    list. *)
Definition batches {A} (l : list A) (batch_size : Z) : result (list (list A)) :=
  (starts <- Py.range0 (Z.of_nat (List.length l) - 1) batch_size ;;
   Ok (map (fun i => Py.slice l i (i + batch_size)) starts))%result.

(** The same comprehension on the decoded [objectIds]: a list is cut into
    lists, a string into its characters, and a dictionary has a length but
    no slices. *)
Definition fid_batch_list (fid_list : json) (batch_size : Z)
  : result (list (list json)) :=
  (n <- Py.len fid_list ;;
   starts <- Py.range0 (n - 1) batch_size ;;
   rmap (fun i =>
           match fid_list with
           | JArr l => Ok (Py.slice l i (i + batch_size))
           | JStr s => Ok (Py.slice (Py.chars s) i (i + batch_size))
           | _ => Raise TypeError
           end) starts)%result.

(** The inner loop over [insert_field_list]. *)
Fixpoint attribute_list (insert_field_list : list string) (attributes : json)
  : result (list value) :=
  match insert_field_list with
  | [] => Ok []
  | attribute_name :: rest =>
      if negb (String.eqb attribute_name "SHAPE@") then
        (v <- Py.getitem attributes attribute_name ;;
         vs <- attribute_list rest attributes ;;
         Ok (Attribute v :: vs))%result
      else attribute_list rest attributes
  end.

(** The list given to [insertRow] for one feature. *)
Definition row_of (insert_field_list : list string) (feature : feature_dict)
  : result (list value) :=
  (vs <- attribute_list insert_field_list (attributes feature) ;;
   Ok (vs ++ [Geometry (geometry feature)])%list)%result.

(** ** class FeatureService: the methods that call the endpoint *)

Section Endpoint.

(** [requests.get(url).json()]: the decoded body of the response, or the
    exception of the request or of the decoder. *)
Variable http : string -> result json.

Local Open Scope io_scope.

Definition _get_dict (url query_string : string) : M json :=
  let url := (url ++ "?" ++ query_string)%string in
  emit (HttpGet url) ;;
  lift (http url).

Definition _describe (url : string) : M json :=
  _get_dict url "f=json".

(** [FeatureService(feature_service_url)]. *)
Definition __init__ (feature_service_url : string) : M FeatureService :=
  properties <- _describe feature_service_url ;;
  ret {| url := feature_service_url; properties := properties |}.

Definition query (self : FeatureService) (query_dict : list (string * string))
  : M json :=
  let query_list :=
    map (fun kv => (fst kv ++ "=" ++ snd kv)%string) query_dict in
  _get_dict (url self ++ "/query")%string (Py.join "&" query_list).

Definition get_fid_list (self : FeatureService) : M json :=
  json_dict <- query self [("where", "1%3D1");
                           ("returnIdsOnly", "true");
                           ("f", "json")] ;;
  lift (Py.getitem json_dict "objectIds").

Definition _get_feature_list (self : FeatureService) (fid_list : list json)
  : M (list feature_dict) :=
  let fid_string := Py.join "," (map Py.str fid_list) in
  rest_dict <- query self [("objectIds", fid_string);
                           ("outFields", "*");
                           ("f", "json")] ;;
  lift (feature_list_of rest_dict).

(** The loop that adds the fields; it hands back [insert_field_list]. *)
Fixpoint add_fields (fc : string) (fields : list json)
    (insert_field_list : list string) : M (list string) :=
  match fields with
  | [] => ret insert_field_list
  | field :: rest =>
      valid <- lift (_validate_field field) ;;
      if valid then
        t <- lift (Py.getitem field "type") ;;
        ft <- lift (Py.table field_type t) ;;
        length <- lift (if String.eqb ft "TEXT"
                        then Py.getitem field "length"
                        else Ok (JStr "")) ;;
        name <- lift (field_name_of field) ;;
        alias <- lift (Py.getitem field "alias") ;;
        emit (AddField fc name ft alias length) ;;
        add_fields fc rest (insert_field_list ++ [name])%list
      else add_fields fc rest insert_field_list
  end.

(** The body of the loop over [feature_list]: one row is built and
    inserted. *)
Definition insert_feature (insert_field_list : list string)
    (feature : feature_dict) : M unit :=
  row <- lift (row_of insert_field_list feature) ;;
  emit (InsertRow row).

(** The body of the loop over [fid_batch_list]: one batch is fetched and
    its features inserted. *)
Definition copy_batch (self : FeatureService)
    (insert_field_list : list string) (fid_batch : list json) : M unit :=
  feature_list <- _get_feature_list self fid_batch ;;
  for_each feature_list (insert_feature insert_field_list).

(** The body of the [with] statement. *)
Definition copy_records (self : FeatureService)
    (insert_field_list : list string) (fid_batch_list : list (list json))
  : M unit :=
  for_each fid_batch_list (copy_batch self insert_field_list).

(** [save_to_feature_class] up to the [with] statement: the dataset and
    its fields are created, the identifiers listed and cut into batches.
    It hands on [fc], [insert_field_list] and [fid_batch_list]. *)
Definition prepare (self : FeatureService) (output_feature_class : string)
  : M (string * list string * list (list json)) :=
  gt <- lift (Py.getitem (properties self) "geometryType") ;;
  geometry_type <- lift (Py.table geometry_type_fc gt) ;;
  wkid <- lift (extent <- Py.getitem (properties self) "extent" ;;
                sr <- Py.getitem extent "spatialReference" ;;
                Py.getitem sr "latestWkid")%result ;;
  emit (CreateFeatureclass output_feature_class geometry_type wkid) ;;
  let fc := output_feature_class in
  fields <- lift (fs <- Py.getitem (properties self) "fields" ;;
                  Py.iter fs)%result ;;
  insert_field_list <- add_fields fc fields [] ;;
  batch_size <- lift (mrc <- Py.getitem (properties self) "maxRecordCount" ;;
                      n <- Py.as_int mrc ;;
                      Ok (batch_size_of n))%result ;;
  fid_list <- get_fid_list self ;;
  fid_batch_list <- lift (fid_batch_list fid_list batch_size) ;;
  let insert_field_list := (insert_field_list ++ ["SHAPE@"])%list in
  ret (fc, insert_field_list, fid_batch_list).

Definition save_to_feature_class (self : FeatureService)
    (output_feature_class : string) : M string :=
  prepared <- prepare self output_feature_class ;;
  let '(fc, insert_field_list, fid_batch_list) := prepared in
  emit (InsertCursor fc insert_field_list) ;;
  with_exit (copy_records self insert_field_list fid_batch_list) ;;
  ret fc.

(** [fs_to_fc_tool.py]: build the object, then save it. *)
Definition fs_to_fc_tool (argv1 argv2 : string) : M string :=
  fl <- __init__ argv1 ;;
  save_to_feature_class fl argv2.

End Endpoint.

(** ** A sample service, for running the embedding *)

Module Sample.

Definition base : string := "http://host/rest/services/Towns/FeatureServer/0".

Definition fields : json :=
  JArr [JObj [("name", JStr "OBJECTID"); ("type", JStr "esriFieldTypeOID");
              ("alias", JStr "OBJECTID")];
        JObj [("name", JStr "NAME"); ("type", JStr "esriFieldTypeString");
              ("alias", JStr "Name"); ("length", JNum 40)];
        JObj [("name", JStr "POP"); ("type", JStr "esriFieldTypeInteger");
              ("alias", JStr "Population")];
        JObj [("name", JStr "EDITED"); ("type", JStr "esriFieldTypeDate");
              ("alias", JStr "Edited"); ("length", JNum 8)]].

Definition metadata (maxRecordCount : Z) : json :=
  JObj [("geometryType", JStr "esriGeometryPoint");
        ("fields", fields);
        ("maxRecordCount", JNum maxRecordCount);
        ("extent", JObj [("spatialReference",
                          JObj [("wkid", JNum 102100);
                                ("latestWkid", JNum 3857)])])].

Definition town (oid : Z) (name : string) (pop x y : Z) : json :=
  JObj [("attributes", JObj [("OBJECTID", JNum oid); ("NAME", JStr name);
                             ("POP", JNum pop); ("EDITED", JNull)]);
        ("geometry", JObj [("x", JNum x); ("y", JNum y)])].

Definition page (features : list json) : json :=
  JObj [("geometryType", JStr "esriGeometryPoint");
        ("features", JArr features)].

Definition shape_length_field : list (string * json) :=
  [("name", JStr "Shape.STLength()"); ("type", JStr "esriFieldTypeDouble");
   ("alias", JStr "Length")].

(** Three towns behind a service that announces [maxRecordCount]; the
    feature queries it answers are those of batches of two. *)
Definition http (maxRecordCount : Z) (u : string) : result json :=
  if String.eqb u (base ++ "?f=json") then Ok (metadata maxRecordCount)
  else if String.eqb u (base ++ "/query?where=1%3D1&returnIdsOnly=true&f=json")
  then Ok (JObj [("objectIdFieldName", JStr "OBJECTID");
                 ("objectIds", JArr [JNum 1; JNum 2; JNum 3])])
  else if String.eqb u (base ++ "/query?objectIds=1,2&outFields=*&f=json")
  then Ok (page [town 1 "Ada" 10 5 6; town 2 "Bo" 20 7 8])
  else if String.eqb u (base ++ "/query?objectIds=3&outFields=*&f=json")
  then Ok (page [town 3 "Cy" 30 9 9])
  else Raise ValueError.

(** A server that answers every request with an object that has none
    of the keys of a layer description. *)
Definition bare (u : string) : result json :=
  Ok (JObj [("currentVersion", JNum 10)]).

(** A server whose feature queries answer with an unknown geometry type
    and no feature. *)
Definition envelopes (u : string) : result json :=
  Ok (JObj [("geometryType", JStr "esriGeometryEnvelope");
            ("features", JArr [])]).


(** A server that reports the absence of identifiers with [null]. *)
Definition null_ids (u : string) : result json :=
  Ok (JObj [("objectIdFieldName", JStr "OBJECTID"); ("objectIds", JNull)]).

(** A server that answers every feature query with the same four towns. *)
Definition four_towns : list json :=
  [town 101 "Ada" 10 5 6; town 102 "Bo" 20 7 8;
   town 103 "Cy" 30 9 9; town 104 "Di" 40 1 2].

Definition four (u : string) : result json :=
  Ok (page four_towns).

(** A layer with a text field that bears the name of the geometry token. *)
Definition token_fields : list json :=
  [JObj [("name", JStr "SHAPE@"); ("type", JStr "esriFieldTypeString");
         ("alias", JStr "Shape"); ("length", JNum 10)]].


(** Five towns, two records per query; the second town has no
    population. *)
Definition town_without_pop : json :=
  JObj [("attributes", JObj [("OBJECTID", JNum 2); ("NAME", JStr "Bo");
                             ("EDITED", JNull)]);
        ("geometry", JObj [("x", JNum 7); ("y", JNum 8)])].

Definition gap_http (u : string) : result json :=
  if String.eqb u (base ++ "?f=json") then Ok (metadata 2)
  else if String.eqb u (base ++ "/query?where=1%3D1&returnIdsOnly=true&f=json")
  then Ok (JObj [("objectIds", JArr [JNum 1; JNum 2; JNum 3; JNum 4; JNum 5])])
  else if String.eqb u (base ++ "/query?objectIds=1,2&outFields=*&f=json")
  then Ok (page [town 1 "Ada" 10 5 6; town_without_pop])
  else Ok (page [town 3 "Cy" 30 9 9; town 4 "Di" 40 1 2]).



(** The description of a layer by a server that gives the spatial
    reference by [wkid] alone. *)
Definition metadata_by_wkid : json :=
  JObj [("geometryType", JStr "esriGeometryPoint");
        ("fields", JArr []);
        ("maxRecordCount", JNum 1000);
        ("extent", JObj [("spatialReference", JObj [("wkid", JNum 4326)])])].

Definition by_wkid (u : string) : result json := Ok metadata_by_wkid.

(** The feature dictionaries of the four towns, and their rows for the
    population alone. *)
Definition four_features : list feature_dict :=
  Eval vm_compute in
    match feature_list_of (page four_towns) with
    | Ok l => l
    | Raise _ => []
    end.

Definition four_pop_rows : list (list value) :=
  Eval vm_compute in
    match rmap (row_of ["POP"; "SHAPE@"]) four_features with
    | Ok rows => rows
    | Raise _ => []
    end.

(** A layer whose description lacks [maxRecordCount]. *)
Definition layer_without_count : FeatureService :=
  {| url := base;
     properties := JObj [("geometryType", JStr "esriGeometryPolygon");
                         ("fields", JArr token_fields);
                         ("extent", JObj [("spatialReference",
                                           JObj [("latestWkid", JNum 3857)])])] |}.

Definition layer : FeatureService :=
  {| url := base; properties := metadata 2 |}.

End Sample.


(** ** Vocabulary of the statements *)

(** The pattern that spells a word. *)
Fixpoint literal (w : string) : list Re.item :=
  match w with
  | EmptyString => []
  | String c w' => (Re.Chr c, false) :: literal w'
  end.

(** The URL of the identifier query. *)
Definition ids_query_url (self : FeatureService) : string :=
  url self ++ "/query?where=1%3D1&returnIdsOnly=true&f=json".

(** The URL of the feature query for a list of identifiers. *)
Definition feature_query_url (self : FeatureService) (fid_list : list json)
  : string :=
  url self ++ "/query?objectIds=" ++ Py.join "," (map Py.str fid_list)
           ++ "&outFields=*&f=json".


(** The four geometry types of the lookup tables. *)
Definition recognized (gt : json) : bool :=
  existsb (Py.eq_str gt)
          ["esriGeometryPoint"; "esriGeometryMultipoint";
           "esriGeometryPolyline"; "esriGeometryPolygon"].

(** The exception of a lookup that finds no entry for a value. *)
Definition lookup_failure (k : json) : exn :=
  match k with
  | JArr _ | JObj _ => TypeError
  | _ => KeyError k
  end.

(** The fields of a layer description that pass the filter, and their
    names in the order of the description. *)
Definition is_valid (field : json) : bool :=
  match _validate_field field with
  | Ok true => true
  | _ => false
  end.

Definition name_of (field : json) : string :=
  match field_name_of field with
  | Ok s => s
  | Raise _ => ""
  end.

Definition valid_field_names (fields : list json) : list string :=
  map name_of (filter is_valid fields).



(** A computation whose events all satisfy [P] and whose value, when it
    has one, satisfies [Q]. *)
Definition emits {A} (P : event -> Prop) (Q : A -> Prop) (m : M A) : Prop :=
  Forall P (trace m) /\ forall a, outcome m = Ok a -> Q a.

(** The attribute of a feature under a name, as an element of a row. *)
Definition attribute_of (attributes : json) (name : string) : result value :=
  (v <- Py.getitem attributes name ;; Ok (Attribute v))%result.



(** The URLs requested, in the order of the requests. *)
Definition requests (t : list event) : list string :=
  flat_map (fun ev => match ev with
                      | HttpGet u => [u]
                      | _ => []
                      end) t.

(** The events of the insert cursor. *)
Definition cursor_event (ev : event) : Prop :=
  match ev with
  | InsertCursor _ _ | InsertRow _ | CursorExit => True
  | _ => False
  end.


(** The names of a field list that are not the geometry token. *)
Definition attribute_names (insert_field_list : list string) : list string :=
  filter (fun name => negb (String.eqb name "SHAPE@")) insert_field_list.

(** The rows inserted, in the order of the insertions. *)
Definition inserted (t : list event) : list (list value) :=
  flat_map (fun ev => match ev with
                      | InsertRow row => [row]
                      | _ => []
                      end) t.

(** The features the service returns for a batch; none when the query or
    the decoding of its response fails. *)
Definition fetched (http : string -> result json) (self : FeatureService)
    (fid_batch : list json) : list feature_dict :=
  match (rest_dict <- http (feature_query_url self fid_batch) ;;
         feature_list_of rest_dict)%result with
  | Ok feature_list => feature_list
  | Raise _ => []
  end.

(** Reading a query string back: [s.split(sep)] for a separator of one
    character, and the key and the value on the two sides of the first [=]
    of a part. *)
Fixpoint split_at (sep : ascii) (s : string) : list string :=
  match s with
  | EmptyString => [EmptyString]
  | String c s' =>
      if Ascii.eqb c sep then EmptyString :: split_at sep s'
      else match split_at sep s' with
           | part :: parts => String c part :: parts
           | [] => [String c EmptyString]
           end
  end.

Fixpoint key_value (s : string) : string * string :=
  match s with
  | EmptyString => (EmptyString, EmptyString)
  | String c s' =>
      if Ascii.eqb c "="%char then (EmptyString, s')
      else let (k, v) := key_value s' in (String c k, v)
  end.

Definition parse_query (query_string : string) : list (string * string) :=
  map key_value (split_at "&"%char query_string).

Fixpoint has_char (c : ascii) (s : string) : bool :=
  match s with
  | EmptyString => false
  | String c' s' => Ascii.eqb c' c || has_char c s'
  end.

(** * Properties *)

(** ** Results and computations *)

Lemma bind_trace_ok {A B} (m : M A) (f : A -> M B) (a : A) :
  outcome m = Ok a ->
  bind m f = ((trace m ++ trace (f a))%list, outcome (f a)).
Proof.
  destruct m as [t r]; simpl; intros ->.
  destruct (f a); reflexivity.
Qed.

Lemma bind_raise {A B} (m : M A) (f : A -> M B) (e : exn) :
  outcome m = Raise e -> bind m f = (trace m, Raise e).
Proof.
  destruct m as [t r]; simpl; intros ->; reflexivity.
Qed.

Lemma lift_bind_ok {A B} (r : result A) (f : A -> M B) (a : A) :
  r = Ok a -> bind (lift r) f = f a.
Proof.
  intros ->; unfold lift, bind; destruct (f a); reflexivity.
Qed.

Lemma lift_bind_raise {A B} (r : result A) (f : A -> M B) (e : exn) :
  r = Raise e -> bind (lift r) f = ([], Raise e).
Proof.
  intros ->; reflexivity.
Qed.

Lemma emit_bind {B} (ev : event) (k : unit -> M B) :
  bind (emit ev) k = (ev :: trace (k tt), outcome (k tt)).
Proof.
  unfold emit, bind; destruct (k tt); reflexivity.
Qed.

Lemma trace_bind {A B} (m : M A) (f : A -> M B) :
  trace (bind m f) =
  (trace m ++ match outcome m with
              | Ok a => trace (f a)
              | Raise _ => []
              end)%list.
Proof.
  destruct m as [t [a | e]]; cbn.
  - destruct (f a); reflexivity.
  - symmetry; apply app_nil_r.
Qed.

Lemma outcome_bind {A B} (m : M A) (f : A -> M B) :
  outcome (bind m f) =
  match outcome m with
  | Ok a => outcome (f a)
  | Raise e => Raise e
  end.
Proof.
  destruct m as [t [a | e]]; cbn; [destruct (f a) |]; reflexivity.
Qed.

Lemma emits_ret {A} (P : event -> Prop) (Q : A -> Prop) (a : A) :
  Q a -> emits P Q (ret a).
Proof.
  intros H; split; [constructor | intros a' [= <-]; exact H].
Qed.

Lemma emits_lift {A} (P : event -> Prop) (Q : A -> Prop) (r : result A) :
  (forall a, r = Ok a -> Q a) -> emits P Q (lift r).
Proof.
  intros H; split; [constructor | exact H].
Qed.

Lemma emits_emit (P : event -> Prop) (Q : unit -> Prop) (ev : event) :
  P ev -> Q tt -> emits P Q (emit ev).
Proof.
  intros HP HQ; split; [repeat constructor; exact HP | intros [] _; exact HQ].
Qed.

Lemma emits_bind {A B} (P : event -> Prop) (Q : A -> Prop) (R : B -> Prop)
    (m : M A) (f : A -> M B) :
  emits P Q m -> (forall a, Q a -> emits P R (f a)) -> emits P R (bind m f).
Proof.
  intros [Ht Hq] Hf; split.
  - rewrite trace_bind; apply Forall_app; split; [exact Ht |].
    destruct (outcome m) as [a | e]; [| constructor].
    apply (Hf a (Hq a eq_refl)).
  - intros b; rewrite outcome_bind.
    destruct (outcome m) as [a | e]; [| discriminate].
    apply (Hf a (Hq a eq_refl)).
Qed.

Lemma emits_weaken {A} (P : event -> Prop) (Q Q' : A -> Prop) (m : M A) :
  emits P Q m -> (forall a, Q a -> Q' a) -> emits P Q' m.
Proof.
  intros [Ht Hq] H; split; [exact Ht | intros a Ha; apply H, Hq, Ha].
Qed.

Lemma emits_for_each {A} (P : event -> Prop) (l : list A) (body : A -> M unit) :
  (forall a, In a l -> emits P (fun _ => True) (body a)) ->
  emits P (fun _ => True) (for_each l body).
Proof.
  induction l as [| a l IH]; intros H; cbn [for_each].
  - apply emits_ret; exact I.
  - eapply emits_bind; [apply H; left; reflexivity |].
    intros _ _; apply IH; intros a' Ha'; apply H; right; exact Ha'.
Qed.


Lemma eq_str_true (v : json) (s : string) :
  Py.eq_str v s = true <-> v = JStr s.
Proof.
  destruct v; simpl; try (split; [discriminate | intros H; discriminate H]).
  rewrite String.eqb_eq; split; [intros -> | intros [= ->]]; reflexivity.
Qed.

(** ** The two patterns of the field filter *)

(** A word followed by [.*] matches exactly the strings that start with the
    word. *)
Lemma run_literal_any (w s : string) :
  Re.run (literal w ++ [(Re.Dot, true)]) s = String.prefix w s.
Proof.
  revert s; induction w as [| a w IH]; intros s.
  - destruct s; reflexivity.
  - destruct s as [| c s]; [reflexivity |].
    cbn [literal app Re.run String.prefix Re.accepts].
    destruct (ascii_dec a c) as [-> | Hne].
    + rewrite Ascii.eqb_refl; apply IH.
    + replace (Ascii.eqb c a) with false; [reflexivity |].
      symmetry; apply Ascii.eqb_neq; congruence.
Qed.

Lemma match_OBJECTID (name : string) :
  Re.match_ "^OBJECTID.*" (JStr name) = Ok (String.prefix "OBJECTID" name).
Proof.
  unfold Re.match_; f_equal.
  exact (run_literal_any "OBJECTID" name).
Qed.

Lemma match_Shape (name : string) :
  Re.match_ "^Shape\..*" (JStr name) = Ok (String.prefix "Shape." name).
Proof.
  unfold Re.match_; f_equal.
  exact (run_literal_any "Shape." name).
Qed.

(** ** The field filter *)

Lemma validate_field_value (d : list (string * json)) (t : json) (name : string) :
  Py.lookup "type" d = Some t ->
  Py.lookup "name" d = Some (JStr name) ->
  _validate_field (JObj d) =
  Ok (negb (Py.eq_str t "esriFieldTypeOID"
            || Py.eq_str t "esriFieldTypeGeometry"
            || String.prefix "OBJECTID" name
            || String.prefix "Shape." name
            || Py.eq_str t "esriFieldTypeDate"
            || Py.eq_str t "esriFieldTypeGlobalID")).
Proof.
  intros Ht Hn.
  unfold _validate_field, Py.getitem; rewrite Ht, Hn.
  cbn [rbind].
  destruct (Py.eq_str t "esriFieldTypeOID"); [reflexivity |].
  destruct (Py.eq_str t "esriFieldTypeGeometry"); [reflexivity |].
  rewrite match_OBJECTID; cbn [rbind].
  destruct (String.prefix "OBJECTID" name); [reflexivity |].
  rewrite match_Shape; cbn [rbind].
  destruct (String.prefix "Shape." name); [reflexivity |].
  destruct (Py.eq_str t "esriFieldTypeDate"); [reflexivity |].
  destruct (Py.eq_str t "esriFieldTypeGlobalID"); reflexivity.
Qed.

(** C3.  A field descriptor (a dictionary with a type and a string name) is
    rejected by [_validate_field] if and only if its type is OID, Geometry,
    Date or GlobalID, or its name matches [^OBJECTID.*] or [^Shape\..*],
    that is, starts with [OBJECTID] or with [Shape.]; every other field is
    accepted. *)
Theorem C3_validate_field_iff :
  forall (d : list (string * json)) (t : json) (name : string),
    Py.lookup "type" d = Some t ->
    Py.lookup "name" d = Some (JStr name) ->
    exists valid : bool,
      _validate_field (JObj d) = Ok valid /\
      (valid = false <->
       t = JStr "esriFieldTypeOID" \/
       t = JStr "esriFieldTypeGeometry" \/
       t = JStr "esriFieldTypeDate" \/
       t = JStr "esriFieldTypeGlobalID" \/
       String.prefix "OBJECTID" name = true \/
       String.prefix "Shape." name = true).
Proof.
  intros d t name Ht Hn.
  eexists; split; [apply (validate_field_value d t name Ht Hn) |].
  rewrite negb_false_iff, !orb_true_iff, !eq_str_true.
  tauto.
Qed.

Lemma C3_validate_field_iff_witness :
  Py.lookup "type" Sample.shape_length_field = Some (JStr "esriFieldTypeDouble") /\
  Py.lookup "name" Sample.shape_length_field = Some (JStr "Shape.STLength()") /\
  exists valid : bool,
    _validate_field (JObj Sample.shape_length_field) = Ok valid /\
    (valid = false <->
     JStr "esriFieldTypeDouble" = JStr "esriFieldTypeOID" \/
     JStr "esriFieldTypeDouble" = JStr "esriFieldTypeGeometry" \/
     JStr "esriFieldTypeDouble" = JStr "esriFieldTypeDate" \/
     JStr "esriFieldTypeDouble" = JStr "esriFieldTypeGlobalID" \/
     String.prefix "OBJECTID" "Shape.STLength()" = true \/
     String.prefix "Shape." "Shape.STLength()" = true).
Proof.
  split; [reflexivity |].
  split; [reflexivity |].
  apply (C3_validate_field_iff Sample.shape_length_field
           (JStr "esriFieldTypeDouble") "Shape.STLength()");
    reflexivity.
Defined.

(** ** The geometry helper *)

Lemma has_key_lookup {V} (k : string) (d : list (string * V)) :
  Py.has_key k d = match Py.lookup k d with Some _ => true | None => false end.
Proof. reflexivity. Qed.

(** The value of the helper on a dictionary, by the keys it holds.  The
    last test looks for [y] only: a dictionary with [y] and without [x]
    raises [KeyError], one with [x] and without [y] gives [None]. *)
Lemma get_geometry_json_dict (d : list (string * json)) :
  get_geometry_json (JObj d) =
  match Py.lookup "paths" d with
  | Some paths => Ok paths
  | None =>
      match Py.lookup "rings" d with
      | Some rings => Ok rings
      | None =>
          match Py.lookup "y" d with
          | Some y =>
              match Py.lookup "x" d with
              | Some x => Ok (JArr [x; y])
              | None => Raise (KeyError (JStr "x"))
              end
          | None => Ok JNull
          end
      end
  end.
Proof.
  unfold get_geometry_json, Py.contains, Py.getitem.
  rewrite !has_key_lookup; cbn [rbind truthy_str String.eqb Ascii.eqb negb].
  destruct (Py.lookup "paths" d); cbn; [reflexivity |].
  destruct (Py.lookup "rings" d); cbn; [reflexivity |].
  destruct (Py.lookup "y" d); cbn; [| reflexivity].
  destruct (Py.lookup "x" d); reflexivity.
Qed.

(** C2.  On a geometry dictionary the helper returns the value of [paths]
    when that key exists; else the value of [rings] when that key exists;
    else the pair [[x, y]] when both [x] and [y] exist; and [None] when the
    dictionary has none of the four keys. *)
Theorem C2_geometry_precedence :
  forall d : list (string * json),
    (forall paths, Py.lookup "paths" d = Some paths ->
                   get_geometry_json (JObj d) = Ok paths) /\
    (forall rings, Py.lookup "paths" d = None ->
                   Py.lookup "rings" d = Some rings ->
                   get_geometry_json (JObj d) = Ok rings) /\
    (forall x y, Py.lookup "paths" d = None ->
                 Py.lookup "rings" d = None ->
                 Py.lookup "x" d = Some x ->
                 Py.lookup "y" d = Some y ->
                 get_geometry_json (JObj d) = Ok (JArr [x; y])) /\
    (Py.lookup "paths" d = None ->
     Py.lookup "rings" d = None ->
     Py.lookup "x" d = None ->
     Py.lookup "y" d = None ->
     get_geometry_json (JObj d) = Ok JNull).
Proof.
  intros d; rewrite get_geometry_json_dict.
  repeat split; intros; repeat match goal with
                               | H : Py.lookup _ d = _ |- _ => rewrite H; clear H
                               end; reflexivity.
Qed.

Lemma C2_geometry_precedence_witness :
  get_geometry_json (JObj [("paths", JArr [JArr [JNum 0; JNum 1]]); ("x", JNum 3)])
    = Ok (JArr [JArr [JNum 0; JNum 1]]) /\
  get_geometry_json (JObj [("x", JNum 3); ("rings", JArr []); ("y", JNum 4)])
    = Ok (JArr []) /\
  get_geometry_json (JObj [("x", JNum 3); ("y", JNum 4)])
    = Ok (JArr [JNum 3; JNum 4]) /\
  get_geometry_json (JObj [("z", JNum 3)]) = Ok JNull.
Proof.
  split; [| split; [| split]].
  - apply (proj1 (C2_geometry_precedence _)); reflexivity.
  - apply (proj1 (proj2 (C2_geometry_precedence _))); reflexivity.
  - apply (proj1 (proj2 (proj2 (C2_geometry_precedence _)))); reflexivity.
  - apply (proj2 (proj2 (proj2 (C2_geometry_precedence _)))); reflexivity.
Defined.

(** The cases the precedence leaves open. *)
Lemma get_geometry_json_y_without_x :
  get_geometry_json (JObj [("y", JNum 4)]) = Raise (KeyError (JStr "x")).
Proof. reflexivity. Qed.

Lemma get_geometry_json_x_without_y :
  get_geometry_json (JObj [("x", JNum 3)]) = Ok JNull.
Proof. reflexivity. Qed.

(** ** The batch size *)

(** C4, as the code has it.  The batch size is [min(maxRecordCount, 100)];
    it is at least 1 exactly when [maxRecordCount] is at least 1. *)
Theorem C4_batch_size_min :
  forall maxRecordCount : Z,
    batch_size_of maxRecordCount = Z.min maxRecordCount 100 /\
    (1 <= batch_size_of maxRecordCount <-> 1 <= maxRecordCount).
Proof.
  intros m; unfold batch_size_of.
  destruct (Z.ltb_spec 100 m); lia.
Qed.

(** C4 does not hold as stated: a service that announces a
    [maxRecordCount] of 0 gets the batch size 0. *)
Lemma C4_batch_size_zero :
  ~ (batch_size_of 0 = Z.min 0 100 /\ 1 <= batch_size_of 0).
Proof.
  intros [_ H]; vm_compute in H; apply H; reflexivity.
Qed.

(** ** The batches *)

Section Batches.

Context {A : Type}.
Implicit Types l : list A.

Lemma slice_forward l (i j : Z) :
  0 <= i -> i <= j ->
  Py.slice l i j = firstn (Z.to_nat (j - i)) (skipn (Z.to_nat i) l).
Proof.
  intros Hi Hij; unfold Py.slice, Py.clamp.
  destruct (Z.ltb_spec i 0); [lia |].
  destruct (Z.ltb_spec j 0); [lia |].
  set (n := Z.of_nat (List.length l)).
  destruct (Z.le_gt_cases n i) as [Hge | Hlt].
  - rewrite !(skipn_all2 l) by lia.
    rewrite !firstn_nil; reflexivity.
  - rewrite (Z.min_l i n) by lia.
    destruct (Z.le_gt_cases j n) as [Hj | Hj].
    + rewrite (Z.min_l j n) by lia; reflexivity.
    + rewrite (Z.min_r j n) by lia.
      rewrite !firstn_all2; [reflexivity | |];
        rewrite length_skipn; lia.
Qed.

Lemma firstn_plus (a b : nat) l :
  firstn (a + b)%nat l = (firstn a l ++ firstn b (skipn a l))%list.
Proof.
  revert l; induction a as [| a IH]; intros l; [reflexivity |].
  destruct l as [| x l]; cbn [Nat.add firstn skipn app].
  - rewrite firstn_nil; reflexivity.
  - rewrite IH; reflexivity.
Qed.

(** Consecutive chunks of [b] elements, [k] of them, make up the first
    [k * b] elements. *)
Lemma concat_chunks (b k : nat) l :
  List.concat (map (fun i => firstn b (skipn (i * b)%nat l)) (seq 0 k))
  = firstn (k * b)%nat l.
Proof.
  induction k as [| k IH]; [reflexivity |].
  rewrite seq_S, map_app, concat_app, IH; cbn [map List.concat Nat.add].
  rewrite app_nil_r.
  replace (S k * b)%nat with (k * b + b)%nat by (cbn [Nat.mul]; apply Nat.add_comm).
  symmetry; apply firstn_plus.
Qed.

(** With a batch size of at least 1 the comprehension yields the chunks
    number 0 to [count - 1], where [count] is the number of steps of the
    range below [len(l) - 1]. *)
Lemma batches_chunks l (batch_size : Z) :
  1 <= batch_size ->
  batches l batch_size =
  Ok (map (fun i => firstn (Z.to_nat batch_size)
                           (skipn (i * Z.to_nat batch_size)%nat l))
          (seq 0 (Z.to_nat ((Z.of_nat (List.length l) - 1 + batch_size - 1)
                            / batch_size)))).
Proof.
  intros Hb; unfold batches, Py.range0.
  destruct (Z.eqb_spec batch_size 0); [lia |].
  destruct (Z.ltb_spec 0 batch_size); [| lia].
  cbn [rbind]; f_equal.
  rewrite map_map; apply map_ext; intros i.
  rewrite slice_forward by lia.
  f_equal; [f_equal; lia | f_equal; lia].
Qed.

(** What the batches add up to: the whole list, or the list without its
    last element when [len(l) - 1] is a multiple of the batch size. *)
Lemma batches_concat l (batch_size : Z) :
  1 <= batch_size ->
  exists bl,
    batches l batch_size = Ok bl /\
    List.concat bl =
    if (Z.of_nat (List.length l) - 1) mod batch_size =? 0
    then removelast l else l.
Proof.
  intros Hb; eexists; split; [apply batches_chunks; exact Hb |].
  rewrite concat_chunks.
  set (n := Z.of_nat (List.length l)).
  assert (Hn : n = Z.of_nat (List.length l)) by reflexivity.
  pose proof (Z.div_mod (n - 1) batch_size ltac:(lia)) as Hdm.
  pose proof (Z.mod_pos_bound (n - 1) batch_size ltac:(lia)) as Hr.
  set (q := (n - 1) / batch_size) in *.
  set (r := (n - 1) mod batch_size) in *.
  clearbody q r n.
  destruct (Z.eqb_spec r 0) as [H0 | H0].
  - assert (Hq : (n - 1 + batch_size - 1) / batch_size = q).
    { symmetry; apply (Z.div_unique _ _ _ (batch_size - 1)); lia. }
    rewrite Hq, removelast_firstn_len; f_equal.
    destruct l as [| x l']; cbn [List.length Nat.pred] in *; nia.
  - assert (Hq : (n - 1 + batch_size - 1) / batch_size = q + 1).
    { symmetry; apply (Z.div_unique _ _ _ (r - 1)); lia. }
    rewrite Hq; apply firstn_all2; nia.
Qed.

End Batches.

Lemma rmap_pure {A B} (f : A -> B) (l : list A) :
  rmap (fun a => Ok (f a)) l = Ok (map f l).
Proof.
  induction l as [| a l IH]; cbn; [| rewrite IH]; reflexivity.
Qed.

(** On an array of identifiers the comprehension of the export is the
    comprehension on the list. *)
Lemma fid_batch_list_array (ids : list json) (batch_size : Z) :
  fid_batch_list (JArr ids) batch_size = batches ids batch_size.
Proof.
  unfold fid_batch_list, batches; cbn [Py.len rbind].
  destruct (Py.range0 _ batch_size); cbn [rbind]; [apply rmap_pure | reflexivity].
Qed.

(** C1, at the inputs where the code departs from it.  With three
    identifiers and a batch size of 2 the only batch is the first two
    identifiers; with a single identifier and [maxRecordCount = 1000] there
    is no batch at all.  In both runs the last identifier is in no batch,
    so the batches do not add up to the identifier list. *)
Theorem C1_last_identifier_in_no_batch :
  fid_batch_list (JArr [JNum 1; JNum 2; JNum 3]) (batch_size_of 2)
    = Ok [[JNum 1; JNum 2]] /\
  fid_batch_list (JArr [JNum 7]) (batch_size_of 1000) = Ok [] /\
  batches [1; 2; 3] (batch_size_of 2) = Ok [[1; 2]] /\
  batches [7] (batch_size_of 1000) = Ok [].
Proof. repeat split. Qed.

(** ** Requests *)

Lemma append_assoc (a b c : string) : ((a ++ b) ++ c = a ++ b ++ c)%string.
Proof.
  induction a as [| x a IH]; cbn; [reflexivity | rewrite IH; reflexivity].
Qed.

Lemma get_dict_run (http : string -> result json) (u qs : string) :
  _get_dict http u qs = ([HttpGet (u ++ "?" ++ qs)], http (u ++ "?" ++ qs)).
Proof. reflexivity. Qed.

Lemma get_fid_list_run (http : string -> result json) (self : FeatureService) :
  get_fid_list http self =
  ([HttpGet (ids_query_url self)],
   (json_dict <- http (ids_query_url self) ;;
    Py.getitem json_dict "objectIds")%result).
Proof.
  unfold get_fid_list, query, ids_query_url.
  rewrite get_dict_run, append_assoc.
  cbn [map fst snd Py.join String.append].
  destruct (http _); reflexivity.
Qed.

Lemma get_feature_list_run (http : string -> result json)
    (self : FeatureService) (fid_list : list json) :
  _get_feature_list http self fid_list =
  ([HttpGet (feature_query_url self fid_list)],
   (rest_dict <- http (feature_query_url self fid_list) ;;
    feature_list_of rest_dict)%result).
Proof.
  unfold _get_feature_list, query, feature_query_url.
  rewrite get_dict_run, append_assoc.
  cbn [map fst snd Py.join].
  replace ((url self ++ "/query" ++ "?" ++
            ("objectIds" ++ "=" ++ Py.join "," (map Py.str fid_list)) ++
            "&" ++ "outFields" ++ "=" ++ "*" ++ "&" ++ "f" ++ "=" ++ "json")%string)
    with ((url self ++ "/query?objectIds=" ++ Py.join "," (map Py.str fid_list)
                    ++ "&outFields=*&f=json")%string)
    by (rewrite !append_assoc; reflexivity).
  destruct (http _); reflexivity.
Qed.

(** ** The layer description *)

(** C5, as the code has it.  Building the object sends one request, for
    the base URL with the query string [f=json].  The exception of the
    request or of the JSON decoder is passed on; every decoded response is
    kept as the properties of the layer, whatever keys it has, so the fields
    of the description are the field objects of the response. *)
Theorem C5_describe_keeps_response :
  forall (http : string -> result json) (u : string),
    trace (__init__ http u) = [HttpGet (u ++ "?f=json")] /\
    (forall e, http (u ++ "?f=json") = Raise e ->
               outcome (__init__ http u) = Raise e) /\
    (forall r, http (u ++ "?f=json") = Ok r ->
               outcome (__init__ http u) = Ok {| url := u; properties := r |}) /\
    (forall r fields self,
        http (u ++ "?f=json") = Ok r ->
        Py.getitem r "fields" = Ok (JArr fields) ->
        outcome (__init__ http u) = Ok self ->
        Py.getitem (properties self) "fields" = Ok (JArr fields)).
Proof.
  intros http u.
  unfold __init__, _describe; rewrite get_dict_run.
  cbn [String.append bind ret trace outcome fst snd].
  destruct (http (u ++ "?f=json")) as [r | e]; cbn.
  - split; [reflexivity |].
    split; [intros e H; discriminate H |].
    split; [intros r' [= <-]; reflexivity |].
    intros r' fields self [= <-] Hf [= <-]; exact Hf.
  - split; [reflexivity |].
    split; [intros e' [= <-]; reflexivity |].
    split; [intros r H; discriminate H |].
    intros r fields self H; discriminate H.
Qed.

Lemma C5_describe_keeps_response_witness :
  Sample.http 2 (Sample.base ++ "?f=json") = Ok (Sample.metadata 2) /\
  outcome (__init__ (Sample.http 2) Sample.base)
    = Ok {| url := Sample.base; properties := Sample.metadata 2 |}.
Proof.
  split; [reflexivity |].
  apply (proj1 (proj2 (proj2 (C5_describe_keeps_response (Sample.http 2) Sample.base)))).
  reflexivity.
Defined.

(** C5 does not hold as stated: a decoded response with none of the keys
    [geometryType], [fields], [maxRecordCount] and [extent] is accepted. *)
Lemma C5_missing_keys_accepted :
  exists self,
    outcome (__init__ Sample.bare Sample.base) = Ok self /\
    Py.getitem (properties self) "geometryType" = Raise (KeyError (JStr "geometryType")) /\
    Py.getitem (properties self) "fields" = Raise (KeyError (JStr "fields")) /\
    Py.getitem (properties self) "maxRecordCount"
      = Raise (KeyError (JStr "maxRecordCount")) /\
    Py.getitem (properties self) "extent" = Raise (KeyError (JStr "extent")).
Proof.
  eexists; repeat split.
Qed.

(** ** The identifiers *)



(** A [null] in place of the array is returned as [None]; the export then
    stops at [len(fid_list)]. *)
Lemma get_fid_list_null :
  outcome (get_fid_list Sample.null_ids Sample.layer) = Ok JNull /\
  fid_batch_list JNull (batch_size_of 2) = Raise TypeError.
Proof. split; reflexivity. Qed.

(** ** The features of a batch *)

Lemma rmap_Forall2 {A B} (f : A -> result B) (l : list A) (l' : list B) :
  rmap f l = Ok l' <-> Forall2 (fun a b => f a = Ok b) l l'.
Proof.
  revert l'; induction l as [| a l IH]; intros l'; cbn.
  - split; [intros [= <-]; constructor | intros H; inversion H; reflexivity].
  - destruct (f a) as [b | e] eqn:Ea.
    + destruct (rmap f l) as [bs | e].
      * split.
        -- intros [= <-]; constructor; [exact Ea | apply IH; reflexivity].
        -- intros H; inversion H as [| ? b' ? bs' Hb Hbs]; subst.
           apply IH in Hbs; injection Hbs as ->.
           rewrite Ea in Hb; injection Hb as ->; reflexivity.
      * split; [discriminate |].
        intros H; inversion H as [| ? b' ? bs' Hb Hbs]; subst.
        apply IH in Hbs; discriminate Hbs.
    + split; [discriminate |].
      intros H; inversion H as [| ? b' ? bs' Hb Hbs]; subst.
      rewrite Ea in Hb; discriminate Hb.
Qed.





(** ** Unknown geometry types *)

Lemma eqb_sym_str (a b : string) : String.eqb a b = String.eqb b a.
Proof.
  destruct (String.eqb_spec a b) as [-> | Hne].
  - symmetry; apply String.eqb_refl.
  - symmetry; apply String.eqb_neq; congruence.
Qed.

Lemma label_unrecognized (gt : json) :
  recognized gt = false ->
  Py.table geometry_type_label gt = Raise (lookup_failure gt).
Proof.
  destruct gt as [| b | n | s | l | d]; try reflexivity.
  unfold recognized; cbn [existsb Py.eq_str].
  rewrite !orb_false_iff; intros (H1 & H2 & H3 & H4 & _).
  cbn [Py.table geometry_type_label Py.lookup lookup_failure].
  rewrite (eqb_sym_str _ s), H1, (eqb_sym_str _ s), H2,
          (eqb_sym_str _ s), H3, (eqb_sym_str _ s), H4.
  reflexivity.
Qed.

Lemma fc_type_unrecognized (gt : json) :
  recognized gt = false ->
  Py.table geometry_type_fc gt = Raise (lookup_failure gt).
Proof.
  destruct gt as [| b | n | s | l | d]; try reflexivity.
  unfold recognized; cbn [existsb Py.eq_str].
  rewrite !orb_false_iff; intros (H1 & H2 & H3 & H4 & _).
  cbn [Py.table geometry_type_fc Py.lookup lookup_failure].
  rewrite (eqb_sym_str _ s), H1, (eqb_sym_str _ s), H2,
          (eqb_sym_str _ s), H3, (eqb_sym_str _ s), H4.
  reflexivity.
Qed.

(** C10, as the code has it.  When the geometry type at the top of a
    feature-query response is none of the four known ones, a response with
    at least one feature makes [_get_feature_list] stop with the exception
    of the lookup, an empty array of features gives the empty list (the
    type is looked up once per feature), and in no case is a feature
    dictionary returned.  When the geometry type of the layer description is
    none of the four, [save_to_feature_class] stops with the exception of
    the lookup before any call to the writer. *)
Theorem C10_unknown_geometry_type :
  (forall (http : string -> result json) (self : FeatureService)
          (fid_list : list json) (rest_dict gt : json),
      http (feature_query_url self fid_list) = Ok rest_dict ->
      Py.getitem rest_dict "geometryType" = Ok gt ->
      recognized gt = false ->
      (forall item items,
          Py.getitem rest_dict "features" = Ok (JArr (item :: items)) ->
          outcome (_get_feature_list http self fid_list)
            = Raise (lookup_failure gt)) /\
      (Py.getitem rest_dict "features" = Ok (JArr []) ->
       outcome (_get_feature_list http self fid_list) = Ok []) /\
      (forall feature_list,
          outcome (_get_feature_list http self fid_list) = Ok feature_list ->
          feature_list = [])) /\
  (forall (http : string -> result json) (self : FeatureService)
          (output_feature_class : string) (gt : json),
      Py.getitem (properties self) "geometryType" = Ok gt ->
      recognized gt = false ->
      save_to_feature_class http self output_feature_class
        = ([], Raise (lookup_failure gt))).
Proof.
  split.
  - intros http self fid_list rest_dict gt Hr Hgt Hrec.
    rewrite get_feature_list_run; cbn [outcome snd].
    rewrite Hr; cbn [rbind]; unfold feature_list_of.
    assert (Hhead : forall item items,
               rmap (feature_of rest_dict) (item :: items)
               = Raise (lookup_failure gt)).
    { intros item items; cbn [rmap]; unfold feature_of.
      rewrite Hgt; cbn [rbind].
      rewrite (label_unrecognized gt Hrec); reflexivity. }
    split; [| split].
    + intros item items Hf; rewrite Hf; cbn [rbind Py.iter]; apply Hhead.
    + intros Hf; rewrite Hf; reflexivity.
    + intros feature_list.
      destruct (Py.getitem rest_dict "features") as [fs | e]; cbn [rbind];
        [| discriminate].
      destruct (Py.iter fs) as [[| item items] | e]; cbn [rbind].
      * intros [= <-]; reflexivity.
      * rewrite Hhead; discriminate.
      * discriminate.
  - intros http self output_feature_class gt Hgt Hrec.
    unfold save_to_feature_class, prepare.
    rewrite Hgt; cbn [lift bind].
    rewrite (fc_type_unrecognized gt Hrec); reflexivity.
Qed.

Lemma C10_unknown_geometry_type_witness :
  Sample.envelopes (feature_query_url Sample.layer [JNum 1])
    = Ok (JObj [("geometryType", JStr "esriGeometryEnvelope"); ("features", JArr [])]) /\
  recognized (JStr "esriGeometryEnvelope") = false /\
  (forall feature_list,
      outcome (_get_feature_list Sample.envelopes Sample.layer [JNum 1])
        = Ok feature_list ->
      feature_list = []) /\
  save_to_feature_class (Sample.http 2)
      {| url := Sample.base;
         properties := JObj [("geometryType", JStr "esriGeometryEnvelope")] |}
      "C:/out.gdb/towns"
    = ([], Raise (KeyError (JStr "esriGeometryEnvelope"))).
Proof.
  split; [reflexivity | split; [reflexivity | split]].
  - apply (proj1 C10_unknown_geometry_type Sample.envelopes Sample.layer [JNum 1]
             (JObj [("geometryType", JStr "esriGeometryEnvelope"); ("features", JArr [])])
             (JStr "esriGeometryEnvelope")); reflexivity.
  - apply (proj2 C10_unknown_geometry_type (Sample.http 2) _ "C:/out.gdb/towns"
             (JStr "esriGeometryEnvelope")); reflexivity.
Defined.

(** C10 does not hold as stated: with an unknown geometry type and no
    feature in the response, [_get_feature_list] does not fail. *)
Lemma C10_empty_response_does_not_fail :
  Sample.envelopes (feature_query_url Sample.layer [JNum 1])
    = Ok (JObj [("geometryType", JStr "esriGeometryEnvelope"); ("features", JArr [])]) /\
  recognized (JStr "esriGeometryEnvelope") = false /\
  outcome (_get_feature_list Sample.envelopes Sample.layer [JNum 1]) = Ok [].
Proof. repeat split. Qed.

(** ** The schema and the rows *)

Ltac step_lift :=
  match goal with
  | |- context [bind (lift ?r) ?f] =>
      let a := fresh "a" in
      let e := fresh "e" in
      let E := fresh "E" in
      destruct r as [a | e] eqn:E;
      [rewrite (lift_bind_ok (Ok a) f a eq_refl)
      | rewrite (lift_bind_raise (Raise e) f e eq_refl)]
  end.



Lemma add_fields_events (fc : string) (fields : list json) :
  forall acc : list string,
    Forall (fun ev => match ev with
                      | AddField _ _ _ _ _ => True
                      | _ => False
                      end)
           (trace (add_fields fc fields acc)).
Proof.
  induction fields as [| field fields IH]; intros acc; [constructor |].
  cbn [add_fields].
  step_lift; [| constructor].
  destruct a; [| apply IH].
  do 5 (step_lift; [| constructor]).
  rewrite emit_bind; constructor; [exact I | apply IH].
Qed.

(** The inner loop skips the geometry token and reads every other name. *)
Lemma attribute_list_filter (names : list string) (attributes : json) :
  attribute_list names attributes =
  rmap (attribute_of attributes)
       (filter (fun name => negb (String.eqb name "SHAPE@")) names).
Proof.
  induction names as [| name names IH]; [reflexivity |].
  cbn [attribute_list filter].
  destruct (negb (String.eqb name "SHAPE@")); [| exact IH].
  cbn [rmap]; unfold attribute_of at 1; rewrite IH.
  destruct (Py.getitem attributes name); cbn [rbind]; [| reflexivity].
  destruct (rmap _ _); reflexivity.
Qed.


Lemma rmap_attribute_of (attributes : json) (names : list string)
    (xs : list value) :
  rmap (attribute_of attributes) names = Ok xs ->
  exists vs,
    Forall2 (fun name v => Py.getitem attributes name = Ok v) names vs /\
    xs = map Attribute vs.
Proof.
  revert xs; induction names as [| name names IH]; intros xs; cbn [rmap].
  - intros [= <-]; exists []; split; [constructor | reflexivity].
  - unfold attribute_of at 1.
    destruct (Py.getitem attributes name) as [v | e] eqn:Ev; cbn [rbind];
      [| discriminate].
    destruct (rmap _ names) as [xs' | e]; [| discriminate].
    intros [= <-]; destruct (IH xs' eq_refl) as (vs & Hvs & ->).
    exists (v :: vs); split; [constructor; assumption | reflexivity].
Qed.




Section Exporter.

Variable http : string -> result json.
Variable self : FeatureService.


Lemma get_fid_list_emits (P : event -> Prop) :
  (forall u, P (HttpGet u)) ->
  emits P (fun _ => True) (get_fid_list http self).
Proof.
  intros HP; rewrite get_fid_list_run; split; [| trivial].
  repeat constructor; apply HP.
Qed.


Section Fields.

Variable output_feature_class : string.
Variable fields : list json.

Hypothesis properties_fields :
  (fs <- Py.getitem (properties self) "fields" ;; Py.iter fs)%result
  = Ok fields.

Let names := valid_field_names fields.






End Fields.

End Exporter.




(** ** A feature without an expected attribute *)

Lemma surjective_run {A} (m : M A) : m = (trace m, outcome m).
Proof. destruct m; reflexivity. Qed.

Lemma ret_bind {A B} (a : A) (f : A -> M B) : bind (ret a) f = f a.
Proof. unfold ret, bind; destruct (f a); reflexivity. Qed.

Lemma bind_assoc {A B C} (m : M A) (f : A -> M B) (g : B -> M C) :
  bind (bind m f) g = bind m (fun a => bind (f a) g).
Proof.
  destruct m as [t [a | e]]; cbn; [| reflexivity].
  destruct (f a) as [t' [b | e]]; cbn; [| reflexivity].
  destruct (g b) as [t'' r]; rewrite app_assoc; reflexivity.
Qed.

Lemma bind_ret_tt (m : M unit) : bind m (fun _ => ret tt) = m.
Proof.
  destruct m as [t [[] | e]]; cbn; rewrite ?app_nil_r; reflexivity.
Qed.

Lemma for_each_app {A} (l l' : list A) (body : A -> M unit) :
  for_each (l ++ l') body = bind (for_each l body) (fun _ => for_each l' body).
Proof.
  induction l as [| a l IH]; cbn [app for_each].
  - exact (eq_sym (ret_bind tt (fun _ => for_each l' body))).
  - rewrite bind_assoc, IH; reflexivity.
Qed.

(** A loop that an exception has ended does not look at what remains. *)
Lemma for_each_stops {A} (l l' : list A) (body : A -> M unit) (e : exn) :
  outcome (for_each l body) = Raise e ->
  for_each (l ++ l') body = for_each l body.
Proof.
  intros H; rewrite for_each_app, (bind_raise _ _ e H), <- H.
  symmetry; apply surjective_run.
Qed.



Section Abort.

Variable http : string -> result json.
Variable self : FeatureService.
Variable insert_field_list : list string.

Lemma insert_rows (features : list feature_dict) (rows : list (list value)) :
  rmap (row_of insert_field_list) features = Ok rows ->
  for_each features (insert_feature insert_field_list) = (map InsertRow rows, Ok tt).
Proof.
  revert rows; induction features as [| feature features IH]; intros rows;
    cbn [rmap for_each].
  - intros [= <-]; reflexivity.
  - unfold insert_feature at 1.
    destruct (row_of insert_field_list feature) as [row | e]; [| discriminate].
    destruct (rmap _ features) as [rows' | e]; [| discriminate].
    intros [= <-]; rewrite (IH rows' eq_refl); reflexivity.
Qed.

Variables (fid_batch : list json) (rest_dict : json).
Variables (before : list feature_dict) (feature : feature_dict)
          (after : list feature_dict).
Variable name : string.

Hypothesis response : http (feature_query_url self fid_batch) = Ok rest_dict.
Hypothesis decoded : feature_list_of rest_dict = Ok (before ++ feature :: after)%list.
Hypothesis expected : In name insert_field_list.
Hypothesis attribute : name <> "SHAPE@".
Hypothesis missing :
  Py.getitem (attributes feature) name = Raise (KeyError (JStr name)).




Lemma copy_records_cons (fid_batch_list : list (list json)) (b : list json) :
  copy_records http self insert_field_list (fid_batch_list ++ [b])
  = bind (copy_records http self insert_field_list fid_batch_list)
         (fun _ => copy_batch http self insert_field_list b).
Proof.
  unfold copy_records; rewrite for_each_app; cbn [for_each].
  rewrite <- bind_assoc; apply bind_ret_tt.
Qed.

End Abort.




(** The export of the towns with a gap, run as a whole: the first batch is
    fetched, the row of the first town inserted, and the export ends with
    the [KeyError]; the second batch is never asked for. *)
Lemma export_with_gap_run :
  fs_to_fc_tool Sample.gap_http Sample.base "C:/out.gdb/towns"
  = ([HttpGet (Sample.base ++ "?f=json");
      CreateFeatureclass "C:/out.gdb/towns" "POINT" (JNum 3857);
      AddField "C:/out.gdb/towns" "NAME" "TEXT" (JStr "Name") (JNum 40);
      AddField "C:/out.gdb/towns" "POP" "LONG" (JStr "Population") (JStr "");
      HttpGet (Sample.base ++ "/query?where=1%3D1&returnIdsOnly=true&f=json");
      InsertCursor "C:/out.gdb/towns" ["NAME"; "POP"; "SHAPE@"];
      HttpGet (Sample.base ++ "/query?objectIds=1,2&outFields=*&f=json");
      InsertRow [Attribute (JStr "Ada"); Attribute (JNum 10);
                 Geometry (AsShape "Point" (JArr [JNum 5; JNum 6]))];
      CursorExit],
     Raise (KeyError (JStr "POP"))).
Proof. reflexivity. Qed.

(** The export of the three towns, two per query, run as a whole: the
    third town is in no batch and gets no row. *)
Lemma export_of_three_towns_run :
  fs_to_fc_tool (Sample.http 2) Sample.base "C:/out.gdb/towns"
  = ([HttpGet (Sample.base ++ "?f=json");
      CreateFeatureclass "C:/out.gdb/towns" "POINT" (JNum 3857);
      AddField "C:/out.gdb/towns" "NAME" "TEXT" (JStr "Name") (JNum 40);
      AddField "C:/out.gdb/towns" "POP" "LONG" (JStr "Population") (JStr "");
      HttpGet (Sample.base ++ "/query?where=1%3D1&returnIdsOnly=true&f=json");
      InsertCursor "C:/out.gdb/towns" ["NAME"; "POP"; "SHAPE@"];
      HttpGet (Sample.base ++ "/query?objectIds=1,2&outFields=*&f=json");
      InsertRow [Attribute (JStr "Ada"); Attribute (JNum 10);
                 Geometry (AsShape "Point" (JArr [JNum 5; JNum 6]))];
      InsertRow [Attribute (JStr "Bo"); Attribute (JNum 20);
                 Geometry (AsShape "Point" (JArr [JNum 7; JNum 8]))];
      CursorExit],
     Ok "C:/out.gdb/towns").
Proof. reflexivity. Qed.

(** A [maxRecordCount] of 0 ends the export at the range of the batches. *)
Lemma export_with_zero_batch_size :
  outcome (fs_to_fc_tool (Sample.http 0) Sample.base "C:/out.gdb/towns")
  = Raise ValueError.
Proof. reflexivity. Qed.

(** * Further properties of the code *)

(** ** The batches, for every batch size *)

(** X1.  With a batch size of at least 1 the batches of an array of
    identifiers, put end to end, are the array itself, or the array without
    its last identifier when the number of identifiers less one is a
    multiple of the batch size. *)
Theorem X1_batches_lose_at_most_the_last :
  forall (ids : list json) (batch_size : Z),
    1 <= batch_size ->
    exists bl,
      fid_batch_list (JArr ids) batch_size = Ok bl /\
      List.concat bl =
      if (Z.of_nat (List.length ids) - 1) mod batch_size =? 0
      then removelast ids else ids.
Proof.
  intros ids batch_size Hb; rewrite fid_batch_list_array.
  apply batches_concat; exact Hb.
Qed.

Lemma X1_batches_lose_at_most_the_last_witness :
  1 <= 2 /\
  exists bl,
    fid_batch_list (JArr [JNum 1; JNum 2; JNum 3; JNum 4; JNum 5]) 2 = Ok bl /\
    List.concat bl = [JNum 1; JNum 2; JNum 3; JNum 4].
Proof.
  split; [lia |].
  exact (X1_batches_lose_at_most_the_last
           [JNum 1; JNum 2; JNum 3; JNum 4; JNum 5] 2 ltac:(lia)).
Defined.

(** X2.  When [maxRecordCount] is at least 1 the identifiers are cut into
    as many batches as the range has steps, the number of identifiers less
    one divided by the batch size and rounded up; no batch is empty and none
    has more than [min(maxRecordCount, 100)] identifiers. *)
Theorem X2_batches_are_bounded :
  forall (ids : list json) (maxRecordCount : Z),
    1 <= maxRecordCount ->
    exists bl,
      fid_batch_list (JArr ids) (batch_size_of maxRecordCount) = Ok bl /\
      List.length bl
      = Z.to_nat ((Z.of_nat (List.length ids) - 1 + batch_size_of maxRecordCount - 1)
                  / batch_size_of maxRecordCount) /\
      Forall (fun b => b <> [] /\
                       Z.of_nat (List.length b) <= Z.min maxRecordCount 100) bl.
Proof.
  intros ids m Hm.
  assert (Hmin : batch_size_of m = Z.min m 100)
    by (unfold batch_size_of; destruct (Z.ltb_spec 100 m); lia).
  set (bs := batch_size_of m) in *.
  assert (Hbs : 1 <= bs) by lia.
  rewrite fid_batch_list_array, (batches_chunks ids bs Hbs).
  eexists; split; [reflexivity |].
  split; [rewrite length_map, length_seq; reflexivity |].
  apply Forall_forall; intros b Hb.
  apply in_map_iff in Hb; destruct Hb as (i & <- & Hi).
  apply in_seq in Hi.
  set (n := Z.of_nat (List.length ids)) in *.
  assert (Hn : n = Z.of_nat (List.length ids)) by reflexivity.
  pose proof (Z.mul_div_le (n - 1 + bs - 1) bs ltac:(lia)) as Hq.
  set (q := (n - 1 + bs - 1) / bs) in *; clearbody q n.
  assert (Hlt : (i * Z.to_nat bs + 2 <= List.length ids)%nat) by nia.
  split.
  - intros Hnil; apply (f_equal (@List.length json)) in Hnil.
    rewrite length_firstn, length_skipn in Hnil; cbn in Hnil; lia.
  - pose proof (firstn_le_length (Z.to_nat bs)
                  (skipn (i * Z.to_nat bs) ids)); lia.
Qed.

Lemma X2_batches_are_bounded_witness :
  1 <= 1000 /\
  exists bl,
    fid_batch_list (JArr [JNum 1; JNum 2; JNum 3]) (batch_size_of 1000) = Ok bl /\
    List.length bl = 1%nat /\
    Forall (fun b => b <> [] /\ Z.of_nat (List.length b) <= 100) bl.
Proof.
  split; [lia |].
  exact (X2_batches_are_bounded [JNum 1; JNum 2; JNum 3] 1000 ltac:(lia)).
Defined.

(** X3.  A [maxRecordCount] of 0 ends the cutting into batches with
    [ValueError], whatever the identifiers; a negative one gives no batch at
    all when there is at least one identifier, and the single empty batch
    when there is none. *)
Theorem X3_batches_without_positive_size :
  forall (ids : list json) (maxRecordCount : Z),
    (maxRecordCount = 0 ->
     fid_batch_list (JArr ids) (batch_size_of maxRecordCount) = Raise ValueError) /\
    (maxRecordCount < 0 -> ids <> [] ->
     fid_batch_list (JArr ids) (batch_size_of maxRecordCount) = Ok []) /\
    (maxRecordCount < 0 ->
     fid_batch_list (JArr []) (batch_size_of maxRecordCount) = Ok [[]]).
Proof.
  intros ids m; rewrite !fid_batch_list_array.
  split; [intros ->; reflexivity |].
  assert (Hsize : m < 0 -> batch_size_of m = m).
  { intros Hm; unfold batch_size_of; destruct (Z.ltb_spec 100 m); [lia | reflexivity]. }
  split.
  - intros Hm Hids; rewrite (Hsize Hm); unfold batches, Py.range0.
    destruct (Z.eqb_spec m 0); [lia |].
    destruct (Z.ltb_spec 0 m); [lia |].
    replace (Z.to_nat ((- (Z.of_nat (List.length ids) - 1) - m - 1) / - m))
      with 0%nat; [reflexivity |].
    destruct ids as [| x ids]; [contradiction |].
    assert ((- (Z.of_nat (List.length (x :: ids)) - 1) - m - 1) / - m <= 0);
      [| lia].
    cbn [List.length].
    apply Z.lt_succ_r, Z.div_lt_upper_bound; lia.
  - intros Hm; rewrite (Hsize Hm); unfold batches, Py.range0.
    destruct (Z.eqb_spec m 0); [lia |].
    destruct (Z.ltb_spec 0 m); [lia |].
    cbn [List.length Z.of_nat].
    replace ((- (0 - 1) - m - 1) / - m) with 1
      by (replace (- (0 - 1) - m - 1) with (- m) by lia;
          symmetry; apply Z.div_same; lia).
    change (Z.to_nat 1) with 1%nat; cbn [seq map rbind].
    unfold Py.slice; rewrite skipn_nil, firstn_nil; reflexivity.
Qed.

Lemma X3_batches_without_positive_size_witness :
  -5 < 0 /\ [JNum 1; JNum 2] <> [] /\
  fid_batch_list (JArr [JNum 1; JNum 2]) (batch_size_of (-5)) = Ok [].
Proof.
  split; [lia |].
  split; [discriminate |].
  apply (proj1 (proj2 (X3_batches_without_positive_size [JNum 1; JNum 2] (-5))));
    [lia | discriminate].
Defined.

(** ** Geometries and features the service may send *)

(** X4.  A geometry dictionary without [paths] and [rings] that has [y]
    and no [x] makes the helper raise [KeyError] for [x]; one that has [x]
    and no [y] gives [None]. *)
Theorem X4_geometry_with_one_coordinate :
  forall d : list (string * json),
    Py.lookup "paths" d = None ->
    Py.lookup "rings" d = None ->
    (forall y, Py.lookup "y" d = Some y -> Py.lookup "x" d = None ->
               get_geometry_json (JObj d) = Raise (KeyError (JStr "x"))) /\
    (forall x, Py.lookup "x" d = Some x -> Py.lookup "y" d = None ->
               get_geometry_json (JObj d) = Ok JNull).
Proof.
  intros d Hp Hr; rewrite get_geometry_json_dict, Hp, Hr.
  split; [intros y Hy Hx | intros x Hx Hy]; rewrite Hy; [rewrite Hx |]; reflexivity.
Qed.

Lemma X4_geometry_with_one_coordinate_witness :
  Py.lookup "paths" [("y", JNum 4); ("z", JNum 0)] = None /\
  Py.lookup "rings" [("y", JNum 4); ("z", JNum 0)] = None /\
  Py.lookup "y" [("y", JNum 4); ("z", JNum 0)] = Some (JNum 4) /\
  Py.lookup "x" [("y", JNum 4); ("z", JNum 0)] = None /\
  get_geometry_json (JObj [("y", JNum 4); ("z", JNum 0)])
    = Raise (KeyError (JStr "x")).
Proof.
  repeat (split; [reflexivity |]).
  apply (proj1 (X4_geometry_with_one_coordinate [("y", JNum 4); ("z", JNum 0)]
                  eq_refl eq_refl) (JNum 4)); reflexivity.
Defined.

Lemma rmap_raises {A B} (f : A -> result B) (l : list A) (a : A) (e : exn) :
  In a l -> f a = Raise e -> exists e', rmap f l = Raise e'.
Proof.
  intros Hin Ha; induction l as [| x l IH]; [contradiction |].
  cbn [rmap]; destruct (f x) as [b | e'] eqn:Ex; [| exists e'; reflexivity].
  destruct Hin as [-> | Hin]; [congruence |].
  destruct (IH Hin) as [e' ->]; exists e'; reflexivity.
Qed.

(** X5.  When one entry of the features of a response has no [geometry]
    key, or a [null] geometry, or no [attributes] key, [_get_feature_list]
    ends with an exception: no feature of the batch is returned. *)
Theorem X5_one_bad_feature_fails_the_batch :
  forall (http : string -> result json) (self : FeatureService)
         (fid_list : list json) (rest_dict : json) (items : list json)
         (item : json),
    http (feature_query_url self fid_list) = Ok rest_dict ->
    Py.getitem rest_dict "features" = Ok (JArr items) ->
    In item items ->
    Py.getitem item "geometry" = Raise (KeyError (JStr "geometry")) \/
    Py.getitem item "geometry" = Ok JNull \/
    Py.getitem item "attributes" = Raise (KeyError (JStr "attributes")) ->
    exists e, outcome (_get_feature_list http self fid_list) = Raise e.
Proof.
  intros http self fid_list rest_dict items item Hr Hf Hin Hbad.
  rewrite get_feature_list_run; cbn [outcome snd].
  rewrite Hr; cbn [rbind]; unfold feature_list_of.
  rewrite Hf; cbn [rbind Py.iter].
  assert (Hitem : exists e, feature_of rest_dict item = Raise e).
  { unfold feature_of.
    destruct (Py.getitem rest_dict "geometryType") as [gt | e]; cbn [rbind];
      [| exists e; reflexivity].
    destruct (Py.table geometry_type_label gt) as [label | e]; cbn [rbind];
      [| exists e; reflexivity].
    destruct Hbad as [Hg | [Hg | Ha]].
    - rewrite Hg; eexists; reflexivity.
    - rewrite Hg; eexists; reflexivity.
    - destruct (Py.getitem item "geometry") as [g | e]; cbn [rbind];
        [| exists e; reflexivity].
      destruct (get_geometry_json g) as [c | e]; cbn [rbind];
        [| exists e; reflexivity].
      rewrite Ha; eexists; reflexivity. }
  destruct Hitem as [e He].
  apply (rmap_raises _ _ item e Hin He).
Qed.

Lemma X5_one_bad_feature_fails_the_batch_witness :
  exists e,
    outcome (_get_feature_list
               (fun _ => Ok (Sample.page
                               [Sample.town 1 "Ada" 10 5 6;
                                JObj [("attributes", JObj [("NAME", JStr "Bo")])]]))
               Sample.layer [JNum 1; JNum 2]) = Raise e.
Proof.
  apply (X5_one_bad_feature_fails_the_batch _ Sample.layer [JNum 1; JNum 2]
           (Sample.page [Sample.town 1 "Ada" 10 5 6;
                         JObj [("attributes", JObj [("NAME", JStr "Bo")])]])
           [Sample.town 1 "Ada" 10 5 6;
            JObj [("attributes", JObj [("NAME", JStr "Bo")])]]
           (JObj [("attributes", JObj [("NAME", JStr "Bo")])])
           eq_refl eq_refl).
  - right; left; reflexivity.
  - left; reflexivity.
Defined.

Lemma recognized_lookups (gt : json) :
  recognized gt = true ->
  (exists g, Py.table geometry_type_fc gt = Ok g) /\
  (exists label, Py.table geometry_type_label gt = Ok label).
Proof.
  intros Hrec; unfold recognized in Hrec; apply existsb_exists in Hrec.
  destruct Hrec as (s & Hs & Heq); apply eq_str_true in Heq; subst gt.
  destruct Hs as [<- | [<- | [<- | [<- | []]]]]; split; eexists; reflexivity.
Qed.

(** X6.  The table of dataset geometry types and the table of shape labels
    know the same geometry types, the four recognized ones: each of the two
    lookups succeeds exactly on them. *)
Theorem X6_geometry_tables_agree :
  forall gt : json,
    (recognized gt = true <-> exists g, Py.table geometry_type_fc gt = Ok g) /\
    (recognized gt = true <-> exists label, Py.table geometry_type_label gt = Ok label).
Proof.
  intros gt; destruct (recognized gt) eqn:Hrec.
  - destruct (recognized_lookups gt Hrec) as [Hfc Hlabel].
    split; split; trivial.
  - rewrite (fc_type_unrecognized gt Hrec), (label_unrecognized gt Hrec).
    split; split; try discriminate; intros [x Hx]; discriminate Hx.
Qed.

(** X7.  What [_validate_field] does with incomplete field descriptions:
    a field of type OID or Geometry is rejected without a look at its name;
    a dictionary without [type] raises [KeyError]; for any other type a
    missing [name] raises [KeyError] and a name that is no string raises
    [TypeError]. *)
Theorem X7_validate_field_incomplete :
  forall d : list (string * json),
    (forall t, Py.lookup "type" d = Some t ->
               t = JStr "esriFieldTypeOID" \/ t = JStr "esriFieldTypeGeometry" ->
               _validate_field (JObj d) = Ok false) /\
    (Py.lookup "type" d = None ->
     _validate_field (JObj d) = Raise (KeyError (JStr "type"))) /\
    (forall t, Py.lookup "type" d = Some t ->
               t <> JStr "esriFieldTypeOID" -> t <> JStr "esriFieldTypeGeometry" ->
               (Py.lookup "name" d = None ->
                _validate_field (JObj d) = Raise (KeyError (JStr "name"))) /\
               (forall name, Py.lookup "name" d = Some name ->
                             (forall s, name <> JStr s) ->
                             _validate_field (JObj d) = Raise TypeError)).
Proof.
  intros d; unfold _validate_field, Py.getitem.
  split; [| split].
  - intros t -> [-> | ->]; reflexivity.
  - intros ->; reflexivity.
  - intros t -> Hoid Hgeo; cbn [rbind].
    destruct (Py.eq_str t "esriFieldTypeOID") eqn:E1;
      [apply eq_str_true in E1; contradiction |].
    destruct (Py.eq_str t "esriFieldTypeGeometry") eqn:E2;
      [apply eq_str_true in E2; contradiction |].
    split; [intros ->; reflexivity |].
    intros name -> Hname; cbn [rbind].
    destruct name; try reflexivity.
    exfalso; apply (Hname s); reflexivity.
Qed.

Lemma X7_validate_field_incomplete_witness :
  Py.lookup "type" [("type", JStr "esriFieldTypeOID")] = Some (JStr "esriFieldTypeOID") /\
  _validate_field (JObj [("type", JStr "esriFieldTypeOID")]) = Ok false.
Proof.
  split; [reflexivity |].
  apply (proj1 (X7_validate_field_incomplete [("type", JStr "esriFieldTypeOID")])
           (JStr "esriFieldTypeOID")); [reflexivity | left; reflexivity].
Defined.

(** ** The schema of the dataset *)

Lemma add_fields_app (fc : string) (pre rest : list json) :
  forall acc : list string,
    add_fields fc (pre ++ rest) acc
    = bind (add_fields fc pre acc) (fun l => add_fields fc rest l).
Proof.
  induction pre as [| field pre IH]; intros acc; cbn [app add_fields].
  - exact (eq_sym (ret_bind acc (fun l => add_fields fc rest l))).
  - rewrite bind_assoc.
    destruct (_validate_field field) as [[|] | e]; [| | reflexivity].
    + rewrite !(lift_bind_ok (Ok true) _ true eq_refl).
      do 5 (rewrite bind_assoc;
            match goal with
            | |- bind (lift ?r) _ = _ =>
                let a := fresh "a" in
                destruct r as [a | ?];
                [rewrite !(lift_bind_ok (Ok a) _ a eq_refl) | reflexivity]
            end).
      rewrite bind_assoc, !emit_bind, IH; reflexivity.
    + rewrite !(lift_bind_ok (Ok false) _ false eq_refl); apply IH.
Qed.

Lemma validate_true_type (field t : json) :
  _validate_field field = Ok true ->
  Py.getitem field "type" = Ok t ->
  Py.eq_str t "esriFieldTypeDate" = false /\
  Py.eq_str t "esriFieldTypeGlobalID" = false.
Proof.
  unfold _validate_field; intros H Ht; rewrite Ht in H; cbn [rbind] in H.
  destruct (Py.eq_str t "esriFieldTypeOID"); [discriminate |].
  destruct (Py.eq_str t "esriFieldTypeGeometry"); [discriminate |].
  destruct (Py.getitem field "name") as [name | e]; [| discriminate].
  cbn [rbind] in H.
  destruct (Re.match_ "^OBJECTID.*" name) as [[|] | e]; try discriminate.
  cbn [rbind] in H.
  destruct (Re.match_ "^Shape\..*" name) as [[|] | e]; try discriminate.
  destruct (Py.eq_str t "esriFieldTypeDate"); [discriminate |].
  destruct (Py.eq_str t "esriFieldTypeGlobalID"); [discriminate |].
  split; reflexivity.
Qed.

Lemma field_type_of_valid (t : json) (ft : string) :
  Py.eq_str t "esriFieldTypeDate" = false ->
  Py.eq_str t "esriFieldTypeGlobalID" = false ->
  Py.table field_type t = Ok ft ->
  In ft ["TEXT"; "FLOAT"; "DOUBLE"; "SHORT"; "LONG"].
Proof.
  destruct t as [| b | n | s | l | d]; try discriminate.
  cbn [Py.eq_str Py.table field_type Py.lookup]; intros Hd Hg.
  rewrite (eqb_sym_str "esriFieldTypeDate" s), Hd,
          (eqb_sym_str "esriFieldTypeGlobalID" s), Hg.
  repeat match goal with
         | |- context [String.eqb ?k s] => destruct (String.eqb k s)
         end;
    intros H; try discriminate H; injection H as <-; cbn; tauto.
Qed.

(** X8.  Every field added to the dataset is added to the feature class
    being created, with one of the types TEXT, FLOAT, DOUBLE, SHORT and
    LONG: the entries DATE and GUID of the table of field types are never
    used.  The length is the empty string unless the type is TEXT. *)
Theorem X8_added_fields_are_text_or_numbers :
  forall (fc : string) (fields : list json) (acc : list string),
    Forall (fun ev =>
              match ev with
              | AddField in_table _ ft _ field_length =>
                  in_table = fc /\
                  In ft ["TEXT"; "FLOAT"; "DOUBLE"; "SHORT"; "LONG"] /\
                  (ft <> "TEXT" -> field_length = JStr "")
              | _ => False
              end)
           (trace (add_fields fc fields acc)).
Proof.
  intros fc fields; induction fields as [| field fields IH]; intros acc;
    [constructor |].
  cbn [add_fields].
  destruct (_validate_field field) as [[|] | e] eqn:Ev;
    [ rewrite (lift_bind_ok _ _ true eq_refl)
    | rewrite (lift_bind_ok _ _ false eq_refl); apply IH
    | constructor ].
  destruct (Py.getitem field "type") as [t | e] eqn:Et;
    [rewrite (lift_bind_ok _ _ t eq_refl) | constructor].
  destruct (Py.table field_type t) as [ft | e] eqn:Eft;
    [rewrite (lift_bind_ok _ _ ft eq_refl) | constructor].
  destruct (validate_true_type field t Ev Et) as [Hd Hg].
  pose proof (field_type_of_valid t ft Hd Hg Eft) as Hft.
  destruct (String.eqb_spec ft "TEXT") as [Htext | Htext].
  - do 3 (step_lift; [| constructor]).
    rewrite emit_bind; constructor; [| apply IH].
    repeat split; [exact Hft | intros Hne; contradiction].
  - rewrite (lift_bind_ok _ _ (JStr "") eq_refl).
    do 2 (step_lift; [| constructor]).
    rewrite emit_bind; constructor; [| apply IH].
    repeat split; exact Hft.
Qed.

(** X9.  A field that passes the filter and whose type is not in the table
    of field types ends the loop over the fields with the exception of the
    lookup: the fields before it have been added, the field and those after
    it have not. *)
Theorem X9_unknown_field_type_stops_the_schema :
  forall (fc : string) (pre : list json) (field : json) (post : list json)
         (acc l : list string) (t : json) (e : exn),
    outcome (add_fields fc pre acc) = Ok l ->
    _validate_field field = Ok true ->
    Py.getitem field "type" = Ok t ->
    Py.table field_type t = Raise e ->
    add_fields fc (pre ++ field :: post) acc
    = (trace (add_fields fc pre acc), Raise e).
Proof.
  intros fc pre field post acc l t e Hpre Hv Ht Hft.
  rewrite add_fields_app, (bind_trace_ok _ _ l Hpre).
  cbn [add_fields].
  rewrite (lift_bind_ok _ _ true Hv), (lift_bind_ok _ _ t Ht),
          (lift_bind_raise _ _ e Hft).
  cbn; rewrite app_nil_r; reflexivity.
Qed.

Lemma X9_unknown_field_type_stops_the_schema_witness :
  add_fields "C:/out.gdb/towns"
    ([JObj [("name", JStr "NAME"); ("type", JStr "esriFieldTypeString");
            ("alias", JStr "Name"); ("length", JNum 40)]]
     ++ JObj [("name", JStr "PHOTO"); ("type", JStr "esriFieldTypeBlob");
              ("alias", JStr "Photo")]
        :: [JObj [("name", JStr "POP"); ("type", JStr "esriFieldTypeInteger");
                  ("alias", JStr "Population")]]) []
  = ([AddField "C:/out.gdb/towns" "NAME" "TEXT" (JStr "Name") (JNum 40)],
     Raise (KeyError (JStr "esriFieldTypeBlob"))).
Proof.
  exact (X9_unknown_field_type_stops_the_schema "C:/out.gdb/towns"
           [JObj [("name", JStr "NAME"); ("type", JStr "esriFieldTypeString");
                  ("alias", JStr "Name"); ("length", JNum 40)]]
           (JObj [("name", JStr "PHOTO"); ("type", JStr "esriFieldTypeBlob");
                  ("alias", JStr "Photo")])
           [JObj [("name", JStr "POP"); ("type", JStr "esriFieldTypeInteger");
                  ("alias", JStr "Population")]]
           [] ["NAME"] (JStr "esriFieldTypeBlob")
           (KeyError (JStr "esriFieldTypeBlob"))
           eq_refl eq_refl eq_refl eq_refl).
Defined.

(** ** The layer description, when the export reads it *)

(** X10.  The tool asks for the layer description first.  When that
    request fails, when the description has no geometry type, or when its
    geometry type is a recognized one and the well-known id cannot be read
    from [extent], [spatialReference], [latestWkid], the tool ends with
    that exception after this one request: the writer is never called. *)
Theorem X10_no_dataset_without_type_and_wkid :
  forall (http : string -> result json) (u output_feature_class : string),
    (forall e, http (u ++ "?f=json") = Raise e ->
               fs_to_fc_tool http u output_feature_class
               = ([HttpGet (u ++ "?f=json")], Raise e)) /\
    (forall props e,
        http (u ++ "?f=json") = Ok props ->
        Py.getitem props "geometryType" = Raise e ->
        fs_to_fc_tool http u output_feature_class
        = ([HttpGet (u ++ "?f=json")], Raise e)) /\
    (forall props gt e,
        http (u ++ "?f=json") = Ok props ->
        Py.getitem props "geometryType" = Ok gt ->
        recognized gt = true ->
        (extent <- Py.getitem props "extent" ;;
         sr <- Py.getitem extent "spatialReference" ;;
         Py.getitem sr "latestWkid")%result = Raise e ->
        fs_to_fc_tool http u output_feature_class
        = ([HttpGet (u ++ "?f=json")], Raise e)).
Proof.
  intros http u output_feature_class.
  unfold fs_to_fc_tool, __init__, _describe; rewrite get_dict_run.
  cbn [String.append].
  split; [intros e ->; reflexivity |].
  split.
  - intros props e -> Hgt.
    unfold save_to_feature_class, prepare; cbn [bind ret properties].
    rewrite Hgt; reflexivity.
  - intros props gt e -> Hgt Hrec Hwkid.
    destruct (proj1 (recognized_lookups gt Hrec)) as [g Hg].
    unfold save_to_feature_class, prepare; cbn [bind ret properties].
    rewrite Hgt, (lift_bind_ok _ _ gt eq_refl), (lift_bind_ok _ _ g Hg),
            (lift_bind_raise _ _ e Hwkid).
    reflexivity.
Qed.

Lemma X10_no_dataset_without_type_and_wkid_witness :
  Sample.by_wkid (Sample.base ++ "?f=json") = Ok Sample.metadata_by_wkid /\
  Py.getitem Sample.metadata_by_wkid "geometryType" = Ok (JStr "esriGeometryPoint") /\
  recognized (JStr "esriGeometryPoint") = true /\
  fs_to_fc_tool Sample.by_wkid Sample.base "C:/out.gdb/towns"
  = ([HttpGet (Sample.base ++ "?f=json")], Raise (KeyError (JStr "latestWkid"))).
Proof.
  repeat (split; [reflexivity |]).
  apply (proj2 (proj2 (X10_no_dataset_without_type_and_wkid Sample.by_wkid
                         Sample.base "C:/out.gdb/towns"))
           Sample.metadata_by_wkid (JStr "esriGeometryPoint")
           (KeyError (JStr "latestWkid")));
    reflexivity.
Defined.

(** X11.  [maxRecordCount] is read after the dataset has been created and
    its fields added: when the description has none, or one that is no
    number, the export ends with that exception, and it has created the
    dataset and added every valid field, and sent no request. *)
Theorem X11_record_count_is_read_after_the_schema :
  forall (http : string -> result json) (self : FeatureService)
         (output_feature_class : string) (gt : json) (g : string)
         (wkid : json) (fields : list json) (l : list string) (e : exn),
    Py.getitem (properties self) "geometryType" = Ok gt ->
    Py.table geometry_type_fc gt = Ok g ->
    (extent <- Py.getitem (properties self) "extent" ;;
     sr <- Py.getitem extent "spatialReference" ;;
     Py.getitem sr "latestWkid")%result = Ok wkid ->
    (fs <- Py.getitem (properties self) "fields" ;; Py.iter fs)%result = Ok fields ->
    outcome (add_fields output_feature_class fields []) = Ok l ->
    (mrc <- Py.getitem (properties self) "maxRecordCount" ;;
     Py.as_int mrc)%result = Raise e ->
    save_to_feature_class http self output_feature_class
    = (CreateFeatureclass output_feature_class g wkid
         :: trace (add_fields output_feature_class fields []),
       Raise e).
Proof.
  intros http self output_feature_class gt g wkid fields l e
         Hgt Hg Hwkid Hfields Hadd Hmrc.
  assert (Hsize :
            (mrc <- Py.getitem (properties self) "maxRecordCount" ;;
             n <- Py.as_int mrc ;; Ok (batch_size_of n))%result = Raise e).
  { destruct (Py.getitem (properties self) "maxRecordCount") as [mrc | e'];
      cbn [rbind] in *; [| exact Hmrc].
    rewrite Hmrc; reflexivity. }
  unfold save_to_feature_class, prepare.
  rewrite (lift_bind_ok _ _ gt Hgt), (lift_bind_ok _ _ g Hg),
          (lift_bind_ok _ _ wkid Hwkid), emit_bind,
          (lift_bind_ok _ _ fields Hfields), (bind_trace_ok _ _ l Hadd),
          (lift_bind_raise _ _ e Hsize).
  cbn; rewrite app_nil_r; reflexivity.
Qed.

Lemma X11_record_count_is_read_after_the_schema_witness :
  save_to_feature_class Sample.bare Sample.layer_without_count "C:/out.gdb/towns"
  = ([CreateFeatureclass "C:/out.gdb/towns" "POLYGON" (JNum 3857);
      AddField "C:/out.gdb/towns" "SHAPE@" "TEXT" (JStr "Shape") (JNum 10)],
     Raise (KeyError (JStr "maxRecordCount"))).
Proof.
  exact (X11_record_count_is_read_after_the_schema Sample.bare
           Sample.layer_without_count
           "C:/out.gdb/towns" (JStr "esriGeometryPolygon") "POLYGON" (JNum 3857)
           Sample.token_fields ["SHAPE@"] (KeyError (JStr "maxRecordCount"))
           eq_refl eq_refl eq_refl eq_refl eq_refl eq_refl).
Defined.

(** ** The export as a whole *)

Lemma cursor_block_run (ev : event) (m : M unit) (fc : string) :
  bind (emit ev) (fun _ => bind (with_exit m) (fun _ => ret fc))
  = (ev :: (trace m ++ [CursorExit])%list,
     match outcome m with
     | Ok _ => Ok fc
     | Raise e => Raise e
     end).
Proof.
  destruct m as [t [[] | e]]; cbn; rewrite ?app_nil_r; reflexivity.
Qed.

(** The run of [save_to_feature_class], from the run up to the [with]
    statement and the run of its body. *)
Lemma save_run (http : string -> result json) (self : FeatureService)
    (output_feature_class : string) :
  save_to_feature_class http self output_feature_class
  = ((trace (prepare http self output_feature_class)
      ++ match outcome (prepare http self output_feature_class) with
         | Ok (fc, insert_field_list, fid_batch_list) =>
             InsertCursor fc insert_field_list
               :: trace (copy_records http self insert_field_list fid_batch_list)
               ++ [CursorExit]
         | Raise _ => []
         end)%list,
     match outcome (prepare http self output_feature_class) with
     | Ok (fc, insert_field_list, fid_batch_list) =>
         match outcome (copy_records http self insert_field_list fid_batch_list) with
         | Ok _ => Ok fc
         | Raise e => Raise e
         end
     | Raise e => Raise e
     end).
Proof.
  rewrite (surjective_run (save_to_feature_class _ _ _)).
  unfold save_to_feature_class; rewrite trace_bind, outcome_bind.
  destruct (outcome (prepare http self output_feature_class))
    as [[[fc insert_field_list] fid_batch_list] | e]; [| reflexivity].
  rewrite cursor_block_run; reflexivity.
Qed.

(** Up to the [with] statement no event of the cursor occurs, and the
    feature class handed on is the one asked for. *)
Lemma prepare_quiet (http : string -> result json) (self : FeatureService)
    (output_feature_class : string) :
  emits (fun ev => ~ cursor_event ev)
        (fun p => fst (fst p) = output_feature_class)
        (prepare http self output_feature_class).
Proof.
  unfold prepare.
  do 3 (eapply emits_bind;
        [apply (emits_lift _ (fun _ => True)); trivial | intros ? _]).
  eapply emits_bind;
    [apply (emits_emit _ (fun _ => True)); [intros [] | exact I] | intros _ _].
  eapply emits_bind;
    [apply (emits_lift _ (fun _ => True)); trivial | intros fields _].
  eapply emits_bind.
  { split; [| intros l _; exact I].
    eapply Forall_impl; [| apply add_fields_events].
    intros [] H; solve [contradiction | intros []]. }
  intros l _.
  eapply emits_bind;
    [apply (emits_lift _ (fun _ => True)); trivial | intros ? _].
  eapply emits_bind;
    [apply (get_fid_list_emits http self (fun ev => ~ cursor_event ev));
     intros u [] | intros ? _].
  eapply emits_bind;
    [apply (emits_lift _ (fun _ => True)); trivial | intros ? _].
  apply emits_ret; reflexivity.
Qed.

(** X12.  When the identifier query answers with a value that has no
    length ([null], a number or a boolean), the export ends with an
    exception and the insert cursor is never opened: no row is written. *)
Theorem X12_identifiers_without_length_end_the_export :
  forall (http : string -> result json) (self : FeatureService)
         (output_feature_class : string) (v : json) (e : exn),
    outcome (get_fid_list http self) = Ok v ->
    Py.len v = Raise e ->
    (exists e', outcome (save_to_feature_class http self output_feature_class)
                = Raise e') /\
    Forall (fun ev => ~ cursor_event ev)
           (trace (save_to_feature_class http self output_feature_class)).
Proof.
  intros http self output_feature_class v e Hids Hlen.
  assert (Hnever : emits (fun _ => True) (fun _ => False)
                         (prepare http self output_feature_class)).
  { unfold prepare.
    do 3 (eapply emits_bind;
          [apply (emits_lift _ (fun _ => True)); trivial | intros ? _]).
    eapply emits_bind;
      [apply (emits_emit _ (fun _ => True)); exact I | intros _ _].
    eapply emits_bind;
      [apply (emits_lift _ (fun _ => True)); trivial | intros fields _].
    eapply emits_bind.
    { split; [apply Forall_forall; trivial | intros l _; exact I]. }
    intros l _.
    eapply emits_bind;
      [apply (emits_lift _ (fun _ => True)); trivial | intros batch_size _].
    eapply (emits_bind _ (fun x => x = v)).
    { split; [apply Forall_forall; trivial |].
      intros fid_list Hf; rewrite Hids in Hf; injection Hf as <-; reflexivity. }
    cbn beta; intros fid_list ->.
    eapply (emits_bind _ (fun _ => False)); [| intros ? []].
    apply emits_lift; intros bl Hbl.
    unfold fid_batch_list in Hbl; rewrite Hlen in Hbl; discriminate Hbl. }
  rewrite save_run.
  destruct (outcome (prepare http self output_feature_class)) as [p | e'] eqn:Ep.
  - destruct (proj2 Hnever p Ep).
  - cbn [trace outcome fst snd]; rewrite app_nil_r.
    split; [exists e'; reflexivity |].
    exact (proj1 (prepare_quiet http self output_feature_class)).
Qed.

Lemma X12_identifiers_without_length_end_the_export_witness :
  outcome (get_fid_list Sample.null_ids Sample.layer) = Ok JNull /\
  Py.len JNull = Raise TypeError /\
  exists e', outcome (save_to_feature_class Sample.null_ids Sample.layer
                        "C:/out.gdb/towns") = Raise e'.
Proof.
  split; [reflexivity | split; [reflexivity |]].
  exact (proj1 (X12_identifiers_without_length_end_the_export
                  Sample.null_ids Sample.layer "C:/out.gdb/towns"
                  JNull TypeError eq_refl eq_refl)).
Defined.




(** ** The copy of the records *)

Lemma requests_app (t t' : list event) :
  requests (t ++ t') = (requests t ++ requests t')%list.
Proof. apply flat_map_app. Qed.

Lemma requests_of_rows (t : list event) :
  Forall (fun ev => match ev with InsertRow _ => True | _ => False end) t ->
  requests t = [].
Proof.
  induction 1 as [| ev t Hev _ IH]; [reflexivity |].
  destruct ev; cbn in *; solve [exact IH | contradiction].
Qed.

Lemma insert_loop_rows (insert_field_list : list string)
    (feature_list : list feature_dict) :
  Forall (fun ev => match ev with InsertRow _ => True | _ => False end)
         (trace (for_each feature_list (insert_feature insert_field_list))).
Proof.
  refine (proj1 (_ : emits _ (fun _ => True) _)).
  apply emits_for_each; intros feature _; unfold insert_feature.
  eapply emits_bind; [apply (emits_lift _ (fun _ => True)); trivial |].
  intros row _; apply emits_emit; exact I.
Qed.

Lemma copy_batch_requests (http : string -> result json) (self : FeatureService)
    (insert_field_list : list string) (fid_batch : list json) :
  requests (trace (copy_batch http self insert_field_list fid_batch))
  = [feature_query_url self fid_batch].
Proof.
  unfold copy_batch; rewrite trace_bind, requests_app, get_feature_list_run.
  cbn [trace outcome fst snd requests flat_map app].
  destruct (rbind _ _) as [feature_list | e]; [| reflexivity].
  rewrite (requests_of_rows _ (insert_loop_rows _ _)); reflexivity.
Qed.

(** X15.  A copy of the records that ends without an exception has sent
    one feature query per batch, in the order of the batches, and no other
    request. *)
Theorem X15_one_request_per_batch :
  forall (http : string -> result json) (self : FeatureService)
         (insert_field_list : list string) (fid_batch_list : list (list json)),
    outcome (copy_records http self insert_field_list fid_batch_list) = Ok tt ->
    requests (trace (copy_records http self insert_field_list fid_batch_list))
    = map (feature_query_url self) fid_batch_list.
Proof.
  intros http self insert_field_list fid_batch_list.
  induction fid_batch_list as [| b bl IH]; [reflexivity |].
  unfold copy_records in *; cbn [for_each map].
  rewrite outcome_bind, trace_bind, requests_app, copy_batch_requests.
  destruct (outcome (copy_batch http self insert_field_list b)) as [[] | e];
    [| discriminate].
  intros Hrest; rewrite (IH Hrest); reflexivity.
Qed.

Lemma X15_one_request_per_batch_witness :
  outcome (copy_records Sample.gap_http Sample.layer ["NAME"; "SHAPE@"]
             [[JNum 3; JNum 4]; [JNum 1; JNum 2]]) = Ok tt /\
  requests (trace (copy_records Sample.gap_http Sample.layer ["NAME"; "SHAPE@"]
                     [[JNum 3; JNum 4]; [JNum 1; JNum 2]]))
  = [Sample.base ++ "/query?objectIds=3,4&outFields=*&f=json";
     Sample.base ++ "/query?objectIds=1,2&outFields=*&f=json"].
Proof.
  split; [reflexivity |].
  exact (X15_one_request_per_batch Sample.gap_http Sample.layer ["NAME"; "SHAPE@"]
           [[JNum 3; JNum 4]; [JNum 1; JNum 2]] eq_refl).
Defined.

(** X16.  When the response to the query of a batch decodes to a list of
    features and a row can be built for each of them, the batch is copied by
    that one request followed by one inserted row per feature, in the order
    of the features. *)
Theorem X16_batch_copied_row_by_row :
  forall (http : string -> result json) (self : FeatureService)
         (insert_field_list : list string) (fid_batch : list json)
         (rest_dict : json) (feature_list : list feature_dict)
         (rows : list (list value)),
    http (feature_query_url self fid_batch) = Ok rest_dict ->
    feature_list_of rest_dict = Ok feature_list ->
    rmap (row_of insert_field_list) feature_list = Ok rows ->
    copy_batch http self insert_field_list fid_batch
    = (HttpGet (feature_query_url self fid_batch) :: map InsertRow rows, Ok tt) /\
    List.length rows = List.length feature_list.
Proof.
  intros http self insert_field_list fid_batch rest_dict feature_list rows
         Hr Hf Hrows.
  split.
  - unfold copy_batch; rewrite get_feature_list_run, Hr; cbn [rbind].
    rewrite Hf; cbn [bind].
    rewrite (insert_rows insert_field_list feature_list rows Hrows); reflexivity.
  - apply rmap_Forall2 in Hrows; symmetry; apply (Forall2_length Hrows).
Qed.

Lemma X16_batch_copied_row_by_row_witness :
  Sample.four (feature_query_url Sample.layer [JNum 101; JNum 104])
    = Ok (Sample.page Sample.four_towns) /\
  feature_list_of (Sample.page Sample.four_towns) = Ok Sample.four_features /\
  rmap (row_of ["POP"; "SHAPE@"]) Sample.four_features = Ok Sample.four_pop_rows /\
  copy_batch Sample.four Sample.layer ["POP"; "SHAPE@"] [JNum 101; JNum 104]
  = (HttpGet (feature_query_url Sample.layer [JNum 101; JNum 104])
       :: map InsertRow Sample.four_pop_rows, Ok tt) /\
  List.length Sample.four_pop_rows = 4%nat.
Proof.
  do 3 (split; [reflexivity |]).
  exact (X16_batch_copied_row_by_row Sample.four Sample.layer
           ["POP"; "SHAPE@"] [JNum 101; JNum 104]
           (Sample.page Sample.four_towns) Sample.four_features
           Sample.four_pop_rows eq_refl eq_refl eq_refl).
Defined.

(** X17.  When the query of a batch fails, or its response does not decode
    to a list of features, after the batches before it went through, the
    copy ends with that exception right after the request: the rows of the
    earlier batches stay inserted, none is inserted for this batch, and the
    batches after it are not asked for. *)
Theorem X17_failed_query_ends_the_copy :
  forall (http : string -> result json) (self : FeatureService)
         (insert_field_list : list string)
         (done : list (list json)) (fid_batch : list json)
         (remaining : list (list json)) (e : exn),
    outcome (copy_records http self insert_field_list done) = Ok tt ->
    (rest_dict <- http (feature_query_url self fid_batch) ;;
     feature_list_of rest_dict)%result = Raise e ->
    copy_records http self insert_field_list (done ++ fid_batch :: remaining)
    = ((trace (copy_records http self insert_field_list done)
        ++ [HttpGet (feature_query_url self fid_batch)])%list,
       Raise e).
Proof.
  intros http self insert_field_list done fid_batch remaining e Hdone Hfail.
  assert (Hbatch : copy_batch http self insert_field_list fid_batch
                   = ([HttpGet (feature_query_url self fid_batch)], Raise e)).
  { unfold copy_batch; rewrite get_feature_list_run, Hfail; reflexivity. }
  assert (Hrun : copy_records http self insert_field_list (done ++ [fid_batch])
                 = ((trace (copy_records http self insert_field_list done)
                     ++ [HttpGet (feature_query_url self fid_batch)])%list,
                    Raise e)).
  { rewrite copy_records_cons, (bind_trace_ok _ _ tt Hdone), Hbatch; reflexivity. }
  change (fid_batch :: remaining) with ([fid_batch] ++ remaining)%list.
  rewrite app_assoc; unfold copy_records in *.
  rewrite (for_each_stops _ remaining _ e); [exact Hrun |].
  rewrite Hrun; reflexivity.
Qed.

Lemma X17_failed_query_ends_the_copy_witness :
  copy_records (Sample.http 2) Sample.layer ["NAME"; "POP"; "SHAPE@"]
    ([[JNum 3]] ++ [JNum 4; JNum 5] :: [[JNum 1; JNum 2]])
  = ([HttpGet (Sample.base ++ "/query?objectIds=3&outFields=*&f=json");
      InsertRow [Attribute (JStr "Cy"); Attribute (JNum 30);
                 Geometry (AsShape "Point" (JArr [JNum 9; JNum 9]))];
      HttpGet (Sample.base ++ "/query?objectIds=4,5&outFields=*&f=json")],
     Raise ValueError).
Proof.
  exact (X17_failed_query_ends_the_copy (Sample.http 2) Sample.layer
           ["NAME"; "POP"; "SHAPE@"] [[JNum 3]] [JNum 4; JNum 5] [[JNum 1; JNum 2]]
           ValueError eq_refl eq_refl).
Defined.

(** X18.  A row is built for a feature exactly when its attributes hold
    every name of the field list other than the geometry token; the row is
    then the values of these names, in the order of the field list, followed
    by the geometry of the feature.  Attributes under other names play no
    part. *)
Theorem X18_row_is_attributes_then_geometry :
  forall (insert_field_list : list string) (feature : feature_dict)
         (row : list value),
    row_of insert_field_list feature = Ok row <->
    exists vs,
      Forall2 (fun name v => Py.getitem (attributes feature) name = Ok v)
              (attribute_names insert_field_list) vs /\
      row = (map Attribute vs ++ [Geometry (geometry feature)])%list.
Proof.
  intros insert_field_list feature row; unfold row_of.
  rewrite attribute_list_filter; fold (attribute_names insert_field_list).
  split.
  - destruct (rmap _ _) as [xs | e] eqn:Ex; cbn [rbind]; [| discriminate].
    intros [= <-]; destruct (rmap_attribute_of _ _ _ Ex) as (vs & Hvs & ->).
    exists vs; split; [exact Hvs | reflexivity].
  - intros (vs & Hvs & ->).
    assert (Hx : rmap (attribute_of (attributes feature))
                      (attribute_names insert_field_list)
                 = Ok (map Attribute vs)).
    { apply rmap_Forall2.
      induction Hvs as [| name v names vs Hv _ IH]; constructor; [| exact IH].
      unfold attribute_of; rewrite Hv; reflexivity. }
    rewrite Hx; reflexivity.
Qed.

(** X19.  What [get_fid_list] does with the answers of a server in
    trouble: the exception of the request is passed on; a response object
    without [objectIds], such as an error report, raises [KeyError]; a
    response that is no object raises [TypeError].  In each case the one
    request has been sent. *)
Theorem X19_identifier_query_failures :
  forall (http : string -> result json) (self : FeatureService),
    (forall e, http (ids_query_url self) = Raise e ->
               get_fid_list http self
               = ([HttpGet (ids_query_url self)], Raise e)) /\
    (forall d, http (ids_query_url self) = Ok (JObj d) ->
               Py.lookup "objectIds" d = None ->
               get_fid_list http self
               = ([HttpGet (ids_query_url self)],
                  Raise (KeyError (JStr "objectIds")))) /\
    (forall v, http (ids_query_url self) = Ok v ->
               (forall d, v <> JObj d) ->
               get_fid_list http self
               = ([HttpGet (ids_query_url self)], Raise TypeError)).
Proof.
  intros http self; rewrite get_fid_list_run.
  split; [intros e ->; reflexivity |].
  split.
  - intros d -> Hd; cbn [rbind Py.getitem]; rewrite Hd; reflexivity.
  - intros v -> Hv; cbn [rbind].
    destruct v; try reflexivity.
    exfalso; apply (Hv members); reflexivity.
Qed.

Lemma X19_identifier_query_failures_witness :
  Sample.bare (ids_query_url Sample.layer) = Ok (JObj [("currentVersion", JNum 10)]) /\
  Py.lookup "objectIds" [("currentVersion", JNum 10)] = None /\
  get_fid_list Sample.bare Sample.layer
  = ([HttpGet (ids_query_url Sample.layer)], Raise (KeyError (JStr "objectIds"))).
Proof.
  split; [reflexivity | split; [reflexivity |]].
  apply (proj1 (proj2 (X19_identifier_query_failures Sample.bare Sample.layer))
           [("currentVersion", JNum 10)]); reflexivity.
Defined.

(** X20.  What [_get_feature_list] does with the answers of a server in
    trouble: the exception of the request is passed on; a response object
    without [features], such as an error report, raises [KeyError]; and a
    response with an empty array of features gives the empty list, whatever
    else it holds.  In each case the one request has been sent. *)
Theorem X20_feature_query_failures :
  forall (http : string -> result json) (self : FeatureService)
         (fid_list : list json),
    (forall e, http (feature_query_url self fid_list) = Raise e ->
               _get_feature_list http self fid_list
               = ([HttpGet (feature_query_url self fid_list)], Raise e)) /\
    (forall d, http (feature_query_url self fid_list) = Ok (JObj d) ->
               Py.lookup "features" d = None ->
               _get_feature_list http self fid_list
               = ([HttpGet (feature_query_url self fid_list)],
                  Raise (KeyError (JStr "features")))) /\
    (forall d, http (feature_query_url self fid_list) = Ok (JObj d) ->
               Py.lookup "features" d = Some (JArr []) ->
               _get_feature_list http self fid_list
               = ([HttpGet (feature_query_url self fid_list)], Ok [])).
Proof.
  intros http self fid_list; rewrite get_feature_list_run.
  split; [intros e ->; reflexivity |].
  split; intros d -> Hd; cbn [rbind]; unfold feature_list_of, Py.getitem;
    rewrite Hd; reflexivity.
Qed.

Lemma X20_feature_query_failures_witness :
  Sample.bare (feature_query_url Sample.layer [JNum 1])
    = Ok (JObj [("currentVersion", JNum 10)]) /\
  Py.lookup "features" [("currentVersion", JNum 10)] = None /\
  _get_feature_list Sample.bare Sample.layer [JNum 1]
  = ([HttpGet (feature_query_url Sample.layer [JNum 1])],
     Raise (KeyError (JStr "features"))).
Proof.
  split; [reflexivity | split; [reflexivity |]].
  apply (proj1 (proj2 (X20_feature_query_failures Sample.bare Sample.layer [JNum 1]))
           [("currentVersion", JNum 10)]); reflexivity.
Defined.

Lemma inserted_app (t t' : list event) :
  inserted (t ++ t') = (inserted t ++ inserted t')%list.
Proof. apply flat_map_app. Qed.

Lemma inserted_rows (rows : list (list value)) :
  inserted (map InsertRow rows) = rows.
Proof.
  induction rows as [| row rows IH]; [reflexivity |].
  cbn; f_equal; exact IH.
Qed.

Lemma insert_loop_ok (insert_field_list : list string)
    (feature_list : list feature_dict) :
  outcome (for_each feature_list (insert_feature insert_field_list)) = Ok tt ->
  exists rows, rmap (row_of insert_field_list) feature_list = Ok rows.
Proof.
  induction feature_list as [| feature feature_list IH]; cbn [for_each rmap].
  - intros _; eexists; reflexivity.
  - rewrite outcome_bind; unfold insert_feature at 1.
    destruct (row_of insert_field_list feature) as [row | e]; [| discriminate].
    cbn [lift bind emit outcome snd]; intros H.
    destruct (IH H) as [rows ->]; eexists; reflexivity.
Qed.

(** X21.  A copy of the records that ends without an exception has
    inserted one row for every feature the service returned for the
    batches, in the order of the batches and of the features in them, and
    each row is the row built for its feature. *)
Theorem X21_one_row_per_fetched_feature :
  forall (http : string -> result json) (self : FeatureService)
         (insert_field_list : list string) (fid_batch_list : list (list json)),
    outcome (copy_records http self insert_field_list fid_batch_list) = Ok tt ->
    Forall2 (fun feature row => row_of insert_field_list feature = Ok row)
            (flat_map (fetched http self) fid_batch_list)
            (inserted (trace (copy_records http self insert_field_list
                                fid_batch_list))).
Proof.
  intros http self insert_field_list fid_batch_list.
  induction fid_batch_list as [| b bl IH]; [intros _; constructor |].
  unfold copy_records in *; cbn [for_each flat_map].
  rewrite outcome_bind, trace_bind, inserted_app.
  destruct (outcome (copy_batch http self insert_field_list b)) as [[] | e] eqn:Eb;
    [| discriminate].
  intros Hrest; apply Forall2_app; [| exact (IH Hrest)].
  clear IH Hrest; revert Eb; unfold copy_batch, fetched.
  rewrite get_feature_list_run.
  destruct (rbind _ _) as [feature_list | e]; [| discriminate].
  cbn [bind].
  destruct (for_each feature_list (insert_feature insert_field_list))
    as [t r] eqn:Eloop; cbn [outcome trace fst snd app inserted flat_map].
  intros ->.
  assert (Hok : outcome (for_each feature_list (insert_feature insert_field_list))
                = Ok tt) by (rewrite Eloop; reflexivity).
  destruct (insert_loop_ok _ _ Hok) as [rows Hrows].
  rewrite (insert_rows _ _ _ Hrows) in Eloop; injection Eloop as <-.
  fold (inserted (map InsertRow rows)); rewrite inserted_rows.
  apply rmap_Forall2; exact Hrows.
Qed.

Lemma X21_one_row_per_fetched_feature_witness :
  outcome (copy_records Sample.four Sample.layer ["POP"; "SHAPE@"]
             [[JNum 101; JNum 102]; [JNum 103; JNum 104]]) = Ok tt /\
  Forall2 (fun feature row => row_of ["POP"; "SHAPE@"] feature = Ok row)
          (Sample.four_features ++ Sample.four_features)
          (Sample.four_pop_rows ++ Sample.four_pop_rows).
Proof.
  split; [reflexivity |].
  exact (X21_one_row_per_fetched_feature Sample.four Sample.layer ["POP"; "SHAPE@"]
           [[JNum 101; JNum 102]; [JNum 103; JNum 104]] eq_refl).
Defined.

(** ** The query string *)

Lemma split_at_free (sep : ascii) (s : string) :
  has_char sep s = false -> split_at sep s = [s].
Proof.
  induction s as [| c s IH]; cbn [has_char split_at]; [reflexivity |].
  rewrite orb_false_iff; intros [Hc Hs].
  rewrite Hc, (IH Hs); reflexivity.
Qed.

Lemma split_at_part (sep : ascii) (s t : string) :
  has_char sep s = false ->
  split_at sep (s ++ String sep t) = s :: split_at sep t.
Proof.
  induction s as [| c s IH]; cbn [has_char split_at String.append].
  - intros _; rewrite Ascii.eqb_refl; reflexivity.
  - rewrite orb_false_iff; intros [Hc Hs].
    rewrite Hc, (IH Hs); reflexivity.
Qed.

Lemma split_at_join (sep : ascii) (l : list string) :
  l <> [] ->
  Forall (fun s => has_char sep s = false) l ->
  split_at sep (Py.join (String sep EmptyString) l) = l.
Proof.
  intros Hne Hall; induction Hall as [| s l Hs Hl IH]; [contradiction |].
  destruct l as [| s' l]; cbn [Py.join].
  - apply split_at_free; exact Hs.
  - cbn [String.append]; rewrite (split_at_part sep s _ Hs).
    f_equal; apply IH; discriminate.
Qed.

Lemma key_value_pair (k v : string) :
  has_char "="%char k = false -> key_value (k ++ String "=" v) = (k, v).
Proof.
  induction k as [| c k IH]; cbn [has_char key_value String.append].
  - intros _; reflexivity.
  - rewrite orb_false_iff; intros [Hc Hk].
    rewrite Hc, (IH Hk); reflexivity.
Qed.

Lemma has_char_append (c : ascii) (s t : string) :
  has_char c (s ++ t) = has_char c s || has_char c t.
Proof.
  induction s as [| x s IH]; cbn [has_char String.append]; [reflexivity |].
  rewrite IH, orb_assoc; reflexivity.
Qed.

(** X22.  [query] sends one request, to the URL of the layer followed by
    [/query?] and the parameters written [key=value] and joined by [&],
    nothing being escaped; the parameters can be read back from that query
    string, in order, when there is at least one, no key holds [&] or [=]
    and no value holds [&]. *)
Theorem X22_query_string_reads_back :
  forall (http : string -> result json) (self : FeatureService)
         (query_dict : list (string * string)),
    query_dict <> [] ->
    Forall (fun kv => has_char "&" (fst kv) = false /\
                      has_char "=" (fst kv) = false /\
                      has_char "&" (snd kv) = false) query_dict ->
    exists query_string,
      query http self query_dict
      = ([HttpGet (url self ++ "/query?" ++ query_string)],
         http (url self ++ "/query?" ++ query_string)) /\
      parse_query query_string = query_dict.
Proof.
  intros http self query_dict Hne Hall.
  exists (Py.join "&" (map (fun kv => (fst kv ++ "=" ++ snd kv)%string) query_dict)).
  split.
  - unfold query; rewrite get_dict_run, append_assoc; reflexivity.
  - unfold parse_query.
    rewrite (split_at_join "&"%char).
    + rewrite map_map; rewrite <- (map_id query_dict) at 2.
      apply map_ext_in; intros [k v] Hin.
      rewrite Forall_forall in Hall; destruct (Hall _ Hin) as (_ & Hk & _).
      exact (key_value_pair k v Hk).
    + destruct query_dict; [contradiction | discriminate].
    + apply Forall_map; eapply Forall_impl; [| exact Hall].
      intros [k v] (Hk & _ & Hv); cbn [fst snd] in *.
      rewrite !has_char_append, Hk, Hv; reflexivity.
Qed.

Lemma X22_query_string_reads_back_witness :
  exists query_string,
    query (Sample.http 2) Sample.layer
      [("where", "1%3D1"); ("returnIdsOnly", "true"); ("f", "json")]
    = ([HttpGet (url Sample.layer ++ "/query?" ++ query_string)],
       Sample.http 2 (url Sample.layer ++ "/query?" ++ query_string)) /\
    parse_query query_string
    = [("where", "1%3D1"); ("returnIdsOnly", "true"); ("f", "json")].
Proof.
  apply (X22_query_string_reads_back (Sample.http 2) Sample.layer
           [("where", "1%3D1"); ("returnIdsOnly", "true"); ("f", "json")]).
  - discriminate.
  - repeat constructor.
Defined.
